(** * glean_server.py: the chat tool of the Glean MCP server

    A shallow embedding of [src/glean_server.py].  The decoded response of
    the remote service is untyped JSON, inspected by duck typing; the Python
    operations the code applies to it ([in], subscripting, iteration,
    [str.join], truthiness) are modelled on every JSON value, with the
    exceptions the interpreter raises.  The network is an oracle from the
    request to its outcome, and the requests issued are recorded in a trace. *)

From Stdlib Require Import List String Ascii ZArith Bool Lia DecimalString.
Import ListNotations.
Local Open Scope string_scope.
Local Open Scope Z_scope.

(** ** Decoded JSON values (what [response.json()] returns) *)

#[local] Set Warnings "-register-all".

Inductive json : Type :=
| JNull
| JBool (b : bool)
| JInt (n : Z)
| JFloat (m e : Z)   (* the float m * 2^e; the code only tests it for zero *)
| JStr (s : string)
| JArr (items : list json)
| JObj (fields : list (string * json)).

(** A Python dict is kept as its items in insertion order. *)
Fixpoint dict_get (key : string) (fields : list (string * json)) : option json :=
  match fields with
  | [] => None
  | (k, v) :: rest => if String.eqb k key then Some v else dict_get key rest
  end.

Definition dict_has (key : string) (fields : list (string * json)) : bool :=
  match dict_get key fields with Some _ => true | None => false end.

(** ** Exceptions *)

Inductive ErrorCode := INVALID_PARAMS | INTERNAL_ERROR.

Record ErrorData := mkErrorData { code : ErrorCode; message : string }.

Inductive exn : Type :=
| McpError (e : ErrorData)
| GleanAPIError (msg : string) (status_code : option Z)
| TimeoutException (text : string)      (* httpx.TimeoutException *)
| RequestError (text : string)          (* any other httpx.RequestError *)
| HTTPStatusError (text : string)       (* httpx.HTTPStatusError *)
| JSONDecodeError (text : string)       (* json.JSONDecodeError *)
| TypeError (text : string)
| KeyError (key : string).

(** [str(e)] *)
Definition str_exn (e : exn) : string :=
  match e with
  | McpError d => message d
  | GleanAPIError msg _ => msg
  | TimeoutException t | RequestError t | HTTPStatusError t
  | JSONDecodeError t | TypeError t => t
  | KeyError k => "'" ++ k ++ "'"
  end.

Inductive result (A : Type) : Type :=
| Return (a : A)
| Raise (e : exn).
Arguments Return {A} a.
Arguments Raise {A} e.

Definition bind {A B} (r : result A) (k : A -> result B) : result B :=
  match r with
  | Return a => k a
  | Raise e => Raise e
  end.

Notation "x <- c ;; k" := (bind c (fun x => k))
  (at level 61, c at next level, right associativity).

(** ** The Python operations applied to a decoded value *)

(** The texts of the interpreter's own exceptions are those of CPython 3.12;
    the statements below do not depend on their wording. *)

(** [type(x).__name__] *)
Definition type_name (x : json) : string :=
  match x with
  | JNull => "NoneType"
  | JBool _ => "bool"
  | JInt _ => "int"
  | JFloat _ _ => "float"
  | JStr _ => "str"
  | JArr _ => "list"
  | JObj _ => "dict"
  end.

(** [bool(x)] *)
Definition truthy (x : json) : bool :=
  match x with
  | JNull => false
  | JBool b => b
  | JInt n => negb (n =? 0)
  | JFloat m _ => negb (m =? 0)
  | JStr s => negb (String.eqb s "")
  | JArr items => match items with [] => false | _ => true end
  | JObj fields => match fields with [] => false | _ => true end
  end.

(** [x == s] for a str [s] *)
Definition eq_str (x : json) (s : string) : bool :=
  match x with
  | JStr t => String.eqb t s
  | _ => false
  end.

(** [sub in s] on two strs *)
Fixpoint substring_of (sub s : string) : bool :=
  if String.prefix sub s then true
  else match s with
       | EmptyString => false
       | String _ rest => substring_of sub rest
       end.

(** [key in x] *)
Definition py_in (key : string) (x : json) : result bool :=
  match x with
  | JObj fields => Return (dict_has key fields)
  | JArr items => Return (existsb (fun v => eq_str v key) items)
  | JStr s => Return (substring_of key s)
  | _ => Raise (TypeError ("argument of type '" ++ type_name x ++ "' is not iterable"))
  end.

(** [x[key]] for a str [key] *)
Definition py_getitem (x : json) (key : string) : result json :=
  match x with
  | JObj fields =>
      match dict_get key fields with
      | Some v => Return v
      | None => Raise (KeyError key)
      end
  | JArr _ => Raise (TypeError "list indices must be integers or slices, not str")
  | JStr _ => Raise (TypeError "string indices must be integers, not 'str'")
  | _ => Raise (TypeError ("'" ++ type_name x ++ "' object is not subscriptable"))
  end.

Fixpoint chars_of (s : string) : list json :=
  match s with
  | EmptyString => []
  | String c rest => JStr (String c EmptyString) :: chars_of rest
  end.

(** the items [for v in x] runs over *)
Definition py_iter (x : json) : result (list json) :=
  match x with
  | JArr items => Return items
  | JObj fields => Return (map (fun kv => JStr (fst kv)) fields)
  | JStr s => Return (chars_of s)
  | _ => Raise (TypeError ("'" ++ type_name x ++ "' object is not iterable"))
  end.

Definition string_of_nat (n : nat) : string :=
  NilZero.string_of_uint (Nat.to_uint n).

(** [sep.join(items)], the items counted from [i] *)
Fixpoint join_from (i : nat) (sep : string) (items : list json) : result string :=
  match items with
  | [] => Return ""
  | JStr s :: rest =>
      match rest with
      | [] => Return s
      | _ => tl <- join_from (S i) sep rest ;; Return (s ++ sep ++ tl)
      end
  | v :: _ =>
      Raise (TypeError ("sequence item " ++ string_of_nat i
                        ++ ": expected str instance, " ++ type_name v ++ " found"))
  end.

Definition str_join (sep : string) (items : list json) : result string :=
  join_from 0 sep items.

(** ** Data model (the pydantic classes) *)

Record Fragment := mkFragment { text : string }.

Record ChatMessage := mkChatMessage {
  author : string;
  fragments : list Fragment;
  messageType : string
}.

(** the defaults of [ChatMessage]: [author = "USER"], [messageType = "CONTENT"] *)
Definition user_message (fs : list Fragment) : ChatMessage :=
  mkChatMessage "USER" fs "CONTENT".

Record ChatRequest := mkChatRequest {
  messages : list ChatMessage;
  saveChat : bool;
  stream : bool
}.

(** [fragment.dict()] and [message.dict()] *)
Definition Fragment_dict (f : Fragment) : json :=
  JObj [("text", JStr (text f))].

Definition ChatMessage_dict (m : ChatMessage) : json :=
  JObj [("author", JStr (author m));
        ("fragments", JArr (map Fragment_dict (fragments m)));
        ("messageType", JStr (messageType m))].

(** ** parse_response *)

Definition nl : string := String (ascii_of_nat 10) EmptyString.

(** the separator ["\n---\n"] *)
Definition separator : string := nl ++ "---" ++ nl.

(** The inner loop [for fragment in message['fragments']]: the texts are
    appended to [all_fragments_text], which keeps what was appended before
    an exception. *)
Fixpoint collect_fragments (frags : list json) (all_fragments_text : list json)
  : list json * option exn :=
  match frags with
  | [] => (all_fragments_text, None)
  | fragment :: rest =>
      match py_in "text" fragment with
      | Raise e => (all_fragments_text, Some e)
      | Return false => collect_fragments rest all_fragments_text
      | Return true =>
          match py_getitem fragment "text" with
          | Raise e => (all_fragments_text, Some e)
          | Return t => collect_fragments rest (all_fragments_text ++ [t])
          end
      end
  end.

(** The body of the [try] for one message. *)
Definition process_message (message : json) (all_fragments_text : list json)
  : list json * option exn :=
  match py_in "fragments" message with
  | Raise e => (all_fragments_text, Some e)
  | Return false => (all_fragments_text, None)
  | Return true =>
      match py_getitem message "fragments" with
      | Raise e => (all_fragments_text, Some e)
      | Return fs =>
          match py_iter fs with
          | Raise e => (all_fragments_text, Some e)
          | Return frags => collect_fragments frags all_fragments_text
          end
      end
  end.

(** The loop [for message in json_data], with [except json.JSONDecodeError:
    continue]; any other exception leaves the function. *)
Fixpoint parse_loop (json_data : list json) (all_fragments_text : list json)
  : result (list json) :=
  match json_data with
  | [] => Return all_fragments_text
  | message :: rest =>
      match process_message message all_fragments_text with
      | (acc, None) => parse_loop rest acc
      | (acc, Some (JSONDecodeError _)) => parse_loop rest acc
      | (_, Some e) => Raise e
      end
  end.

Definition parse_response (json_data : list json) : result (list json) :=
  parse_loop json_data [].

(** ** make_glean_request *)

Record Config := mkConfig {
  GLEAN_API_KEY : option string;    (* os.getenv("GLEAN_API_KEY") *)
  GLEAN_BASE_URL : string
}.

Definition default_base_url : string :=
  "https://scio-prod-be.glean.com/rest/api/v1/".

(** [not GLEAN_API_KEY]: unset, or set to the empty string *)
Definition api_key_missing (cfg : Config) : bool :=
  match GLEAN_API_KEY cfg with
  | None => true
  | Some k => String.eqb k ""
  end.

Record Request := mkRequest {
  req_method : string;
  req_url : string;
  req_headers : list (string * string);
  req_json : option json;
  req_timeout : Z          (* seconds *)
}.

(** The body of a response: JSON, or text that [response.json()] rejects
    with a [json.JSONDecodeError] of the given description. *)
Inductive Body :=
| Json (j : json)
| NotJson (text : string).

Record Response := mkResponse {
  status_code : Z;
  status_error_text : string;   (* str() of the error raise_for_status builds *)
  body : Body
}.

(** [response.json()] *)
Definition response_json (r : Response) : result json :=
  match body r with
  | Json j => Return j
  | NotJson t => Raise (JSONDecodeError t)
  end.

(** What [client.request] does: it raises [httpx.TimeoutException], raises
    another [httpx.RequestError], or returns a response. *)
Inductive NetOutcome :=
| TimedOut (text : string)
| ConnectFailed (text : string)
| Responded (r : Response).

Definition Network := Request -> NetOutcome.

(** httpx: [response.raise_for_status()] raises [HTTPStatusError] unless
    [response.is_success], that is unless the status is 2xx. *)
Definition is_success (status : Z) : bool :=
  (200 <=? status) && (status <=? 299).

Definition raise_for_status (r : Response) : result unit :=
  if is_success (status_code r) then Return tt
  else Raise (HTTPStatusError (status_error_text r)).

Definition internal_error (msg : string) : exn :=
  McpError (mkErrorData INTERNAL_ERROR msg).

Definition build_request (cfg : Config) (key endpoint method : string)
  (data : option json) : Request :=
  mkRequest method
            (GLEAN_BASE_URL cfg ++ "/" ++ endpoint)
            [("Authorization", "Bearer " ++ key);
             ("Content-Type", "application/json")]
            data
            300.

(** The body of the [try] once the response is there. *)
Definition check_response (r : Response) : result json :=
  if status_code r =? 401 then
    Raise (GleanAPIError "Invalid Glean API key" (Some 401))
  else if status_code r =? 403 then
    Raise (GleanAPIError "Access forbidden - check API key permissions" (Some 403))
  else if status_code r =? 429 then
    Raise (GleanAPIError "Rate limit exceeded" (Some 429))
  else
    _ <- raise_for_status r ;;
    response_json r.

(** The [except] clauses, in their order. *)
Definition request_handlers (r : result json) : result json :=
  match r with
  | Return v => Return v
  | Raise (TimeoutException _) =>
      Raise (internal_error "Request to Glean API timed out")
  | Raise (RequestError t) =>
      Raise (internal_error ("Failed to connect to Glean API: " ++ t))
  | Raise (GleanAPIError msg _) =>
      Raise (internal_error msg)
  | Raise (HTTPStatusError t) =>
      Raise (internal_error ("Glean API error: " ++ t))
  | Raise e => Raise e
  end.

(** Returns the result and the requests issued. *)
Definition make_glean_request (cfg : Config) (net : Network)
  (endpoint method : string) (data : option json)
  : result json * list Request :=
  match GLEAN_API_KEY cfg with
  | None =>
      (Raise (internal_error "GLEAN_API_KEY environment variable is not set"), [])
  | Some key =>
      if String.eqb key "" then
        (Raise (internal_error "GLEAN_API_KEY environment variable is not set"), [])
      else
        let req := build_request cfg key endpoint method data in
        (request_handlers
           match net req with
           | TimedOut t => Raise (TimeoutException t)
           | ConnectFailed t => Raise (RequestError t)
           | Responded r => check_response r
           end,
         [req])
  end.

(** ** chat *)

Definition request_data (msgs : list ChatMessage) : json :=
  JObj [("messages", JArr (map ChatMessage_dict msgs));
        ("saveChat", JBool true);
        ("stream", JBool false)].

(** [isinstance(msg, dict) and msg.get("author") == "GLEAN_AI"] *)
Definition is_assistant (msg : json) : bool :=
  match msg with
  | JObj fields =>
      match dict_get "author" fields with
      | Some a => eq_str a "GLEAN_AI"
      | None => false
      end
  | _ => false
  end.

(** [assistant_messages[-1]] of a non-empty list *)
Definition last_of (l : list json) : json := last l JNull.

(** Lines 187-195: the alternative format, then the failure. *)
Definition content_fallback (response : json) : result string :=
  has_content <- py_in "content" response ;;
  if has_content then
    c <- py_getitem response "content" ;;
    match c with
    | JStr s => Return s
    | _ => Raise (internal_error
                    "Could not extract assistant response from Glean Chat API")
    end
  else
    Raise (internal_error "Could not extract assistant response from Glean Chat API").

(** Lines 166-195: from the decoded response to the returned string. *)
Definition extract_assistant_response (response : json) : result string :=
  if negb (truthy response) then
    Raise (internal_error "Empty response received from Glean Chat API")
  else
    has_messages <- py_in "messages" response ;;
    if has_messages then
      m <- py_getitem response "messages" ;;
      match m with
      | JArr items =>
          let assistant_messages := filter is_assistant items in
          match assistant_messages with
          | _ :: _ =>
              let last_message := last_of assistant_messages in
              texts <- parse_response assistant_messages ;;
              str_join separator texts
          | [] => content_fallback response
          end
      | _ => content_fallback response
      end
    else content_fallback response.

(** [except McpError: raise] and [except Exception as e]. *)
Definition chat_handlers (r : result string) : result string :=
  match r with
  | Return s => Return s
  | Raise (McpError d) => Raise (McpError d)
  | Raise e =>
      Raise (internal_error ("Error processing chat request: " ++ str_exn e))
  end.

(** The tool.  Its argument is already a list of [ChatMessage], on which the
    [ChatRequest] constructor does not fail. *)
Definition chat (cfg : Config) (net : Network) (msgs : list ChatMessage)
  : result string * list Request :=
  let args := mkChatRequest msgs true false in
  let (response, trace) :=
    make_glean_request cfg net "chat" "POST" (Some (request_data msgs)) in
  (chat_handlers (r <- response ;; extract_assistant_response r), trace).

(** ** Auxiliary definitions for the statements *)

(** The decoded body the transport hands to the extraction, if any. *)
Definition delivered (cfg : Config) (net : Network) (msgs : list ChatMessage)
  : result json :=
  fst (make_glean_request cfg net "chat" "POST" (Some (request_data msgs))).

(** The request [chat] sends when a key is configured. *)
Definition chat_request (cfg : Config) (msgs : list ChatMessage) : Request :=
  build_request cfg
    (match GLEAN_API_KEY cfg with Some k => k | None => "" end)
    "chat" "POST" (Some (request_data msgs)).

(** The assistant-authored entries of a decoded body. *)
Definition assistant_entries (fields : list (string * json)) : list json :=
  match dict_get "messages" fields with
  | Some (JArr items) => filter is_assistant items
  | _ => []
  end.

(** The fragments of a message-shaped entry. *)
Definition entry_fragments (entry : json) : list json :=
  match entry with
  | JObj fields =>
      match dict_get "fragments" fields with
      | Some (JArr frags) => frags
      | _ => []
      end
  | _ => []
  end.

Definition fragment_has_text (fragment : json) : bool :=
  match fragment with
  | JObj fields => dict_has "text" fields
  | _ => false
  end.

(** A fragment of the documented shape: an object whose [text], when
    present, is a string. *)
Definition fragment_shaped (fragment : json) : bool :=
  match fragment with
  | JObj fields =>
      match dict_get "text" fields with
      | None | Some (JStr _) => true
      | Some _ => false
      end
  | _ => false
  end.

(** An entry of the documented shape: an object whose [fragments], when
    present, is a list of shaped fragments. *)
Definition message_shaped (entry : json) : bool :=
  match entry with
  | JObj fields =>
      match dict_get "fragments" fields with
      | None => true
      | Some (JArr frags) => forallb fragment_shaped frags
      | Some _ => false
      end
  | _ => false
  end.

(** The extraction in the words of the specification: the [text] of every
    fragment that has one, entry by entry and fragment by fragment, joined
    with the separator. *)
Definition spec_fragment_text (fragment : json) : list string :=
  match fragment with
  | JObj fields =>
      match dict_get "text" fields with
      | Some (JStr t) => [t]
      | _ => []
      end
  | _ => []
  end.

Definition spec_entry_texts (entry : json) : list string :=
  flat_map spec_fragment_text (entry_fragments entry).

Definition spec_assistant_text (items : list json) : string :=
  String.concat separator
    (flat_map spec_entry_texts (filter is_assistant items)).

(** Extraction over the last assistant entry alone, for comparison. *)
Definition spec_last_only_text (items : list json) : string :=
  String.concat separator (spec_entry_texts (last_of (filter is_assistant items))).

(** [messages] absent, or present but empty or falsy. *)
Definition messages_unusable (fields : list (string * json)) : bool :=
  match dict_get "messages" fields with
  | None => true
  | Some m => negb (truthy m)
  end.

Definition empty_response_error : exn :=
  internal_error "Empty response received from Glean Chat API".

Definition could_not_extract_error : exn :=
  internal_error "Could not extract assistant response from Glean Chat API".

(** Readers of the wire format, used to state that a request body carries
    the messages it was built from. *)
Definition Fragment_of_json (j : json) : option Fragment :=
  match j with
  | JObj [(k, JStr t)] => if String.eqb k "text" then Some (mkFragment t) else None
  | _ => None
  end.

Fixpoint all_some {A} (l : list (option A)) : option (list A) :=
  match l with
  | [] => Some []
  | None :: _ => None
  | Some a :: rest =>
      match all_some rest with
      | Some r => Some (a :: r)
      | None => None
      end
  end.

Definition ChatMessage_of_json (j : json) : option ChatMessage :=
  match j with
  | JObj [(k1, JStr a); (k2, JArr frags); (k3, JStr ty)] =>
      if String.eqb k1 "author" && String.eqb k2 "fragments"
         && String.eqb k3 "messageType"
      then match all_some (map Fragment_of_json frags) with
           | Some fs => Some (mkChatMessage a fs ty)
           | None => None
           end
      else None
  | _ => None
  end.

(** Sample configuration and networks. *)
Definition sample_cfg : Config := mkConfig (Some "secret") default_base_url.

Definition unset_cfg : Config := mkConfig None default_base_url.

Definition net_always (o : NetOutcome) : Network := fun _ => o.

Definition ok_response (j : json) : NetOutcome :=
  Responded (mkResponse 200 "" (Json j)).

Definition status_response (status : Z) : NetOutcome :=
  Responded (mkResponse status "status error" (NotJson "Expecting value")).

Definition hello_messages : list ChatMessage :=
  [user_message [mkFragment "hello"; mkFragment "there"]].

Definition assistant_entry (texts : list string) : json :=
  JObj [("author", JStr "GLEAN_AI");
        ("fragments", JArr (map (fun t => JObj [("text", JStr t)]) texts))].

(** Sample response bodies. *)
Definition two_assistants_body : json :=
  JObj [("messages",
         JArr [assistant_entry ["a"];
               JObj [("author", JStr "USER");
                     ("fragments", JArr [JObj [("text", JStr "ignored")]])];
               assistant_entry ["b"; "c"]])].

Definition null_text_body : json :=
  JObj [("messages",
         JArr [JObj [("author", JStr "GLEAN_AI");
                     ("fragments",
                      JArr [JObj [("text", JStr "hello")];
                            JObj [("text", JNull)]])]])].

Definition textless_body : json :=
  JObj [("messages",
         JArr [JObj [("author", JStr "GLEAN_AI");
                     ("fragments", JArr [JObj [("structuredResults", JArr [])]])];
               JObj [("author", JStr "GLEAN_AI")]]);
        ("content", JStr "fallback")].

Definition null_fragments_body : json :=
  JObj [("messages",
         JArr [JObj [("author", JStr "GLEAN_AI"); ("fragments", JNull)]]);
        ("content", JStr "fallback")].

(** The message of the error a failed status ends in. *)
Definition status_message (r : Response) : string :=
  if status_code r =? 401 then "Invalid Glean API key"
  else if status_code r =? 403 then "Access forbidden - check API key permissions"
  else if status_code r =? 429 then "Rate limit exceeded"
  else "Glean API error: " ++ status_error_text r.

(** An exception that [chat] turns into, or re-raises as, an internal
    error: anything but an [McpError] with another code. *)
Definition internal_or_python (e : exn) : Prop :=
  match e with
  | McpError d => code d = INTERNAL_ERROR
  | _ => True
  end.

Definition raises_internal {A} (r : result A) : Prop :=
  match r with
  | Return _ => True
  | Raise e => internal_or_python e
  end.

(** The values under [text] that [parse_response] appends for an entry whose
    fragments are objects, whatever their types. *)
Definition fragment_text_value (fragment : json) : list json :=
  match fragment with
  | JObj fields =>
      match dict_get "text" fields with
      | Some v => [v]
      | None => []
      end
  | _ => []
  end.

Definition entry_text_values (entry : json) : list json :=
  flat_map fragment_text_value (entry_fragments entry).

Definition is_object (j : json) : bool :=
  match j with JObj _ => true | _ => false end.

Definition is_string (j : json) : bool :=
  match j with JStr _ => true | _ => false end.

(** An object whose [fragments], when present, is a list of objects. *)
Definition fragments_are_objects (entry : json) : bool :=
  match entry with
  | JObj fields =>
      match dict_get "fragments" fields with
      | None => true
      | Some (JArr frags) => forallb is_object frags
      | Some _ => false
      end
  | _ => false
  end.

Definition undecodable_response (t : string) : NetOutcome :=
  Responded (mkResponse 200 "" (NotJson t)).

(** The messages of the errors [make_glean_request] raises itself. *)
Definition transport_message (msg : string) : Prop :=
  msg = "GLEAN_API_KEY environment variable is not set"
  \/ msg = "Request to Glean API timed out"
  \/ (exists t, msg = "Failed to connect to Glean API: " ++ t)
  \/ msg = "Invalid Glean API key"
  \/ msg = "Access forbidden - check API key permissions"
  \/ msg = "Rate limit exceeded"
  \/ (exists t, msg = "Glean API error: " ++ t).

(** ** Basic facts *)

Lemma chat_fst (cfg : Config) (net : Network) (msgs : list ChatMessage) :
  fst (chat cfg net msgs)
  = chat_handlers (r <- delivered cfg net msgs ;; extract_assistant_response r).
Proof.
  unfold chat, delivered.
  destruct (make_glean_request cfg net "chat" "POST" (Some (request_data msgs)))
    as [response trace].
  reflexivity.
Qed.

Lemma chat_delivered (cfg : Config) (net : Network) (msgs : list ChatMessage)
  (response : json) :
  delivered cfg net msgs = Return response ->
  fst (chat cfg net msgs) = chat_handlers (extract_assistant_response response).
Proof.
  intros H. rewrite chat_fst, H. reflexivity.
Qed.

Lemma delivered_with_key (cfg : Config) (net : Network) (msgs : list ChatMessage) :
  api_key_missing cfg = false ->
  delivered cfg net msgs
  = request_handlers
      match net (chat_request cfg msgs) with
      | TimedOut t => Raise (TimeoutException t)
      | ConnectFailed t => Raise (RequestError t)
      | Responded r => check_response r
      end.
Proof.
  unfold api_key_missing, delivered, make_glean_request, chat_request.
  destruct (GLEAN_API_KEY cfg) as [key|]; [|discriminate].
  intros ->. reflexivity.
Qed.

Lemma trace_with_key (cfg : Config) (net : Network) (msgs : list ChatMessage) :
  api_key_missing cfg = false ->
  snd (chat cfg net msgs) = [chat_request cfg msgs].
Proof.
  unfold api_key_missing, chat, make_glean_request, chat_request.
  destruct (GLEAN_API_KEY cfg) as [key|]; [|discriminate].
  intros ->. reflexivity.
Qed.

Lemma extract_object (fields : list (string * json)) :
  fields <> [] ->
  extract_assistant_response (JObj fields)
  = match assistant_entries fields with
    | _ :: _ =>
        texts <- parse_response (assistant_entries fields) ;;
        str_join separator texts
    | [] => content_fallback (JObj fields)
    end.
Proof.
  intros Hne. unfold extract_assistant_response, assistant_entries.
  destruct fields as [|kv rest]; [congruence|].
  cbn [truthy negb py_in bind py_getitem]. unfold dict_has.
  destruct (dict_get "messages" (kv :: rest)) as [m|]; [|reflexivity].
  destruct m; reflexivity.
Qed.

Lemma dict_get_nonempty (key : string) (fields : list (string * json)) (v : json) :
  dict_get key fields = Some v -> fields <> [].
Proof.
  destruct fields; [discriminate | congruence].
Qed.

Lemma content_fallback_object (fields : list (string * json)) :
  content_fallback (JObj fields)
  = match dict_get "content" fields with
    | Some (JStr s) => Return s
    | _ => Raise could_not_extract_error
    end.
Proof.
  unfold content_fallback. cbn [py_in bind py_getitem]. unfold dict_has.
  destruct (dict_get "content" fields) as [c|]; reflexivity.
Qed.

(** ** parse_response on entries of the documented shape *)

Lemma collect_fragments_shaped (frags acc : list json) :
  forallb fragment_shaped frags = true ->
  collect_fragments frags acc
  = ((acc ++ map JStr (flat_map spec_fragment_text frags))%list, None).
Proof.
  revert acc. induction frags as [|fragment rest IH]; intros acc Hshape.
  - cbn. now rewrite app_nil_r.
  - cbn [forallb] in Hshape. apply andb_true_iff in Hshape as [Hf Hrest].
    destruct fragment as [| | | | |items|fields]; try discriminate Hf.
    cbn [collect_fragments py_in py_getitem flat_map spec_fragment_text].
    unfold dict_has. cbn [fragment_shaped] in Hf.
    destruct (dict_get "text" fields) as [t|].
    + destruct t; try discriminate Hf.
      rewrite (IH _ Hrest), <- app_assoc. reflexivity.
    + now rewrite (IH _ Hrest).
Qed.

Lemma process_message_shaped (entry : json) (acc : list json) :
  message_shaped entry = true ->
  process_message entry acc
  = ((acc ++ map JStr (spec_entry_texts entry))%list, None).
Proof.
  intros Hshape.
  destruct entry as [| | | | |items|fields]; try discriminate Hshape.
  unfold process_message, spec_entry_texts.
  cbn [py_in py_getitem entry_fragments message_shaped] in *. unfold dict_has.
  destruct (dict_get "fragments" fields) as [fs|].
  - destruct fs; try discriminate Hshape.
    cbn [py_iter]. now apply collect_fragments_shaped.
  - cbn. now rewrite app_nil_r.
Qed.

Lemma parse_loop_shaped (entries acc : list json) :
  forallb message_shaped entries = true ->
  parse_loop entries acc
  = Return (acc ++ map JStr (flat_map spec_entry_texts entries))%list.
Proof.
  revert acc. induction entries as [|entry rest IH]; intros acc Hshape.
  - cbn. now rewrite app_nil_r.
  - cbn [forallb] in Hshape. apply andb_true_iff in Hshape as [He Hrest].
    cbn [parse_loop flat_map]. rewrite (process_message_shaped _ _ He).
    rewrite (IH _ Hrest), map_app, app_assoc. reflexivity.
Qed.

Lemma join_from_strings (sep : string) (texts : list string) (i : nat) :
  join_from i sep (map JStr texts) = Return (String.concat sep texts).
Proof.
  revert i. induction texts as [|t rest IH]; intros i; [reflexivity|].
  destruct rest as [|t' rest']; [reflexivity|].
  change (join_from i sep (map JStr (t :: t' :: rest')))
    with (tl <- join_from (S i) sep (map JStr (t' :: rest')) ;;
          Return (t ++ sep ++ tl)).
  rewrite IH. reflexivity.
Qed.

Lemma extract_shaped (entries : list json) :
  forallb message_shaped entries = true ->
  (texts <- parse_response entries ;; str_join separator texts)
  = Return (String.concat separator (flat_map spec_entry_texts entries)).
Proof.
  intros Hshape. unfold parse_response, str_join.
  rewrite (parse_loop_shaped _ _ Hshape). cbn [bind app].
  apply join_from_strings.
Qed.

Lemma assistant_entries_messages (fields : list (string * json)) (items : list json) :
  dict_get "messages" fields = Some (JArr items) ->
  assistant_entries fields = filter is_assistant items.
Proof.
  unfold assistant_entries. now intros ->.
Qed.

Lemma filter_nonempty (items : list json) :
  existsb is_assistant items = true ->
  exists entry rest, filter is_assistant items = entry :: rest.
Proof.
  induction items as [|x xs IH]; [discriminate|].
  cbn. destruct (is_assistant x); [eauto | exact IH].
Qed.

(** *** The response extractor on assistant messages *)

(** C1, as amended: when the decoded body has a [messages] list with at least
    one entry authored by "GLEAN_AI", and the assistant-authored entries have
    the documented shape (their [fragments], when present, is a list of
    objects whose [text], when present, is a string), [chat] returns the
    [text] of every fragment that has one, over all assistant-authored
    entries in order, joined with "\n---\n". *)
Theorem chat_joins_assistant_texts
  (cfg : Config) (net : Network) (msgs : list ChatMessage)
  (fields : list (string * json)) (items : list json) :
  delivered cfg net msgs = Return (JObj fields) ->
  dict_get "messages" fields = Some (JArr items) ->
  existsb is_assistant items = true ->
  forallb message_shaped (filter is_assistant items) = true ->
  fst (chat cfg net msgs) = Return (spec_assistant_text items).
Proof.
  intros Hdel Hmsgs Hsome Hshape.
  rewrite (chat_delivered _ _ _ _ Hdel).
  rewrite (extract_object _ (dict_get_nonempty _ _ _ Hmsgs)).
  rewrite (assistant_entries_messages _ _ Hmsgs).
  destruct (filter_nonempty _ Hsome) as (entry & rest & Hfilter).
  unfold spec_assistant_text. rewrite Hfilter in *.
  rewrite (extract_shaped _ Hshape). reflexivity.
Qed.

Lemma chat_joins_assistant_texts_witness :
  fst (chat sample_cfg (net_always (ok_response two_assistants_body)) hello_messages)
  = Return ("a" ++ separator ++ "b" ++ separator ++ "c").
Proof.
  apply (chat_joins_assistant_texts sample_cfg
           (net_always (ok_response two_assistants_body)) hello_messages
           [("messages",
             JArr [assistant_entry ["a"];
                   JObj [("author", JStr "USER");
                         ("fragments", JArr [JObj [("text", JStr "ignored")]])];
                   assistant_entry ["b"; "c"]])]
           [assistant_entry ["a"];
            JObj [("author", JStr "USER");
                  ("fragments", JArr [JObj [("text", JStr "ignored")]])];
            assistant_entry ["b"; "c"]]);
    reflexivity.
Defined.

(** C1 as stated fails: on a body whose only assistant entry has the
    fragments [{"text": "hello"}, {"text": null}], [chat] returns no string;
    the join raises and the call ends in an internal error. *)
Lemma chat_joins_assistant_texts_counterexample :
  delivered sample_cfg (net_always (ok_response null_text_body)) hello_messages
  = Return null_text_body
  /\ assistant_entries [("messages",
         JArr [JObj [("author", JStr "GLEAN_AI");
                     ("fragments",
                      JArr [JObj [("text", JStr "hello")];
                            JObj [("text", JNull)]])]])] <> []
  /\ (forall s : string,
        fst (chat sample_cfg (net_always (ok_response null_text_body)) hello_messages)
        <> Return s)
  /\ exists d : ErrorData,
        fst (chat sample_cfg (net_always (ok_response null_text_body)) hello_messages)
        = Raise (McpError d)
        /\ code d = INTERNAL_ERROR.
Proof.
  split; [reflexivity|]. split; [discriminate|]. split.
  - intros s. vm_compute. discriminate.
  - eexists. split; [vm_compute; reflexivity | reflexivity].
Qed.

(** C2: with at least one assistant-authored entry, what [chat] returns is
    the extraction over the whole filtered list, in which the selected last
    message does not occur; so two bodies with the same filtered list give
    the same result, whatever their last assistant message is compared to
    the others. *)
Theorem chat_depends_on_filtered_list_only
  (cfg : Config) (net : Network) (msgs : list ChatMessage)
  (fields : list (string * json)) (items : list json) :
  delivered cfg net msgs = Return (JObj fields) ->
  dict_get "messages" fields = Some (JArr items) ->
  existsb is_assistant items = true ->
  fst (chat cfg net msgs)
  = chat_handlers (texts <- parse_response (filter is_assistant items) ;;
                   str_join separator texts)
  /\ forall (cfg' : Config) (net' : Network) (msgs' : list ChatMessage)
            (fields' : list (string * json)) (items' : list json),
       delivered cfg' net' msgs' = Return (JObj fields') ->
       dict_get "messages" fields' = Some (JArr items') ->
       filter is_assistant items' = filter is_assistant items ->
       fst (chat cfg' net' msgs') = fst (chat cfg net msgs).
Proof.
  intros Hdel Hmsgs Hsome.
  assert (Hchat : forall cfg0 net0 msgs0 fields0 items0,
             delivered cfg0 net0 msgs0 = Return (JObj fields0) ->
             dict_get "messages" fields0 = Some (JArr items0) ->
             filter is_assistant items0 = filter is_assistant items ->
             fst (chat cfg0 net0 msgs0)
             = chat_handlers
                 (texts <- parse_response (filter is_assistant items) ;;
                  str_join separator texts)).
  { intros cfg0 net0 msgs0 fields0 items0 Hdel0 Hmsgs0 Hsame.
    rewrite (chat_delivered _ _ _ _ Hdel0).
    rewrite (extract_object _ (dict_get_nonempty _ _ _ Hmsgs0)).
    rewrite (assistant_entries_messages _ _ Hmsgs0), Hsame.
    destruct (filter_nonempty _ Hsome) as (entry & rest & ->). reflexivity. }
  split.
  - now apply (Hchat cfg net msgs fields items).
  - intros cfg' net' msgs' fields' items' Hdel' Hmsgs' Hsame.
    rewrite (Hchat cfg' net' msgs' fields' items' Hdel' Hmsgs' Hsame).
    symmetry. now apply (Hchat cfg net msgs fields items).
Qed.

Lemma chat_depends_on_filtered_list_only_witness :
  fst (chat sample_cfg (net_always (ok_response two_assistants_body)) hello_messages)
  = Return ("a" ++ separator ++ "b" ++ separator ++ "c")
  /\ spec_last_only_text
       [assistant_entry ["a"];
        JObj [("author", JStr "USER");
              ("fragments", JArr [JObj [("text", JStr "ignored")]])];
        assistant_entry ["b"; "c"]]
     = "b" ++ separator ++ "c".
Proof.
  split; [|reflexivity].
  exact (proj1 (chat_depends_on_filtered_list_only sample_cfg
           (net_always (ok_response two_assistants_body)) hello_messages
           [("messages",
             JArr [assistant_entry ["a"];
                   JObj [("author", JStr "USER");
                         ("fragments", JArr [JObj [("text", JStr "ignored")]])];
                   assistant_entry ["b"; "c"]])]
           [assistant_entry ["a"];
            JObj [("author", JStr "USER");
                  ("fragments", JArr [JObj [("text", JStr "ignored")]])];
            assistant_entry ["b"; "c"]]
           eq_refl eq_refl eq_refl)).
Defined.

Lemma no_text_no_texts (entries : list json) :
  forallb (fun entry =>
             forallb (fun f => negb (fragment_has_text f)) (entry_fragments entry))
          entries = true ->
  flat_map spec_entry_texts entries = [].
Proof.
  induction entries as [|entry rest IH]; [reflexivity|].
  cbn [forallb flat_map]. intros H. apply andb_true_iff in H as [He Hrest].
  rewrite (IH Hrest), app_nil_r. unfold spec_entry_texts.
  induction (entry_fragments entry) as [|f fs IHf]; [reflexivity|].
  cbn [forallb flat_map] in *. apply andb_true_iff in He as [Hf Hfs].
  rewrite (IHf Hfs), app_nil_r.
  destruct f; try reflexivity.
  cbn [fragment_has_text spec_fragment_text] in *. unfold dict_has in Hf.
  destruct (dict_get "text" fields); [discriminate | reflexivity].
Qed.

(** C10, as amended: when the decoded body has at least one assistant-authored
    entry, the assistant-authored entries have the documented shape
    ([fragments], when present, is a list of objects), and none of their
    fragments has a [text] field, [chat] returns the empty string; it neither
    fails nor falls back to [content]. *)
Theorem chat_empty_string_without_texts
  (cfg : Config) (net : Network) (msgs : list ChatMessage)
  (fields : list (string * json)) (items : list json) :
  delivered cfg net msgs = Return (JObj fields) ->
  dict_get "messages" fields = Some (JArr items) ->
  existsb is_assistant items = true ->
  forallb message_shaped (filter is_assistant items) = true ->
  forallb (fun entry =>
             forallb (fun f => negb (fragment_has_text f)) (entry_fragments entry))
          (filter is_assistant items) = true ->
  fst (chat cfg net msgs) = Return "".
Proof.
  intros Hdel Hmsgs Hsome Hshape Hnotext.
  rewrite (chat_delivered _ _ _ _ Hdel).
  rewrite (extract_object _ (dict_get_nonempty _ _ _ Hmsgs)).
  rewrite (assistant_entries_messages _ _ Hmsgs).
  destruct (filter_nonempty _ Hsome) as (entry & rest & Hfilter).
  rewrite Hfilter in *.
  rewrite (extract_shaped _ Hshape), (no_text_no_texts _ Hnotext). reflexivity.
Qed.

Lemma chat_empty_string_without_texts_witness :
  fst (chat sample_cfg (net_always (ok_response textless_body)) hello_messages)
  = Return "".
Proof.
  apply (chat_empty_string_without_texts sample_cfg
           (net_always (ok_response textless_body)) hello_messages
           [("messages",
             JArr [JObj [("author", JStr "GLEAN_AI");
                         ("fragments", JArr [JObj [("structuredResults", JArr [])]])];
                   JObj [("author", JStr "GLEAN_AI")]]);
            ("content", JStr "fallback")]
           [JObj [("author", JStr "GLEAN_AI");
                  ("fragments", JArr [JObj [("structuredResults", JArr [])]])];
            JObj [("author", JStr "GLEAN_AI")]]);
    reflexivity.
Defined.

(** C10 as stated fails: the only assistant entry of this body has
    [fragments] null, so no fragment of it has a [text] field, and iterating
    over it raises; [chat] ends in an internal error instead of returning
    the empty string. *)
Lemma chat_empty_string_without_texts_counterexample :
  delivered sample_cfg (net_always (ok_response null_fragments_body)) hello_messages
  = Return null_fragments_body
  /\ existsb is_assistant
       [JObj [("author", JStr "GLEAN_AI"); ("fragments", JNull)]] = true
  /\ forallb (fun entry =>
                forallb (fun f => negb (fragment_has_text f)) (entry_fragments entry))
       [JObj [("author", JStr "GLEAN_AI"); ("fragments", JNull)]] = true
  /\ fst (chat sample_cfg (net_always (ok_response null_fragments_body)) hello_messages)
     <> Return ""
  /\ exists d : ErrorData,
       fst (chat sample_cfg (net_always (ok_response null_fragments_body))
              hello_messages)
       = Raise (McpError d)
       /\ code d = INTERNAL_ERROR.
Proof.
  repeat split; try reflexivity.
  - vm_compute. discriminate.
  - eexists. split; [vm_compute; reflexivity | reflexivity].
Qed.

(** *** Empty, alternative and unrecognised responses *)

Lemma unusable_no_assistant (fields : list (string * json)) :
  messages_unusable fields = true -> assistant_entries fields = [].
Proof.
  unfold messages_unusable, assistant_entries.
  destruct (dict_get "messages" fields) as [m|]; [|reflexivity].
  destruct m as [| | | | |items|]; try reflexivity.
  destruct items; [reflexivity | discriminate].
Qed.

(** C3, as amended: [chat] fails with the "empty response" internal error
    when the decoded body itself is empty or falsy.  On a non-empty object in
    which [messages] is absent, or present but empty or falsy, it returns
    [content] when that is a plain string and otherwise fails with the "could
    not extract assistant response" internal error; in particular
    {"messages": []} fails with the "could not extract" error. *)
Theorem chat_empty_or_unusable_messages
  (cfg : Config) (net : Network) (msgs : list ChatMessage) (response : json) :
  delivered cfg net msgs = Return response ->
  (truthy response = false ->
   fst (chat cfg net msgs) = Raise empty_response_error)
  /\ (forall fields : list (string * json),
        response = JObj fields ->
        fields <> [] ->
        messages_unusable fields = true ->
        fst (chat cfg net msgs)
        = match dict_get "content" fields with
          | Some (JStr s) => Return s
          | _ => Raise could_not_extract_error
          end)
  /\ (response = JObj [("messages", JArr [])] ->
      fst (chat cfg net msgs) = Raise could_not_extract_error).
Proof.
  intros Hdel. rewrite (chat_delivered _ _ _ _ Hdel).
  assert (Hobj : forall fields,
             response = JObj fields -> fields <> [] ->
             messages_unusable fields = true ->
             chat_handlers (extract_assistant_response response)
             = match dict_get "content" fields with
               | Some (JStr s) => Return s
               | _ => Raise could_not_extract_error
               end).
  { intros fields -> Hne Hun.
    rewrite (extract_object _ Hne), (unusable_no_assistant _ Hun).
    rewrite content_fallback_object.
    destruct (dict_get "content" fields) as [c|]; [destruct c|]; reflexivity. }
  split; [|split].
  - intros Hfalsy. unfold extract_assistant_response. rewrite Hfalsy. reflexivity.
  - exact Hobj.
  - intros Heq. rewrite (Hobj _ Heq); [reflexivity | discriminate | reflexivity].
Qed.

Lemma chat_empty_or_unusable_messages_witness :
  fst (chat sample_cfg (net_always (ok_response (JObj [("messages", JArr [])])))
         hello_messages)
  = Raise could_not_extract_error
  /\ fst (chat sample_cfg (net_always (ok_response (JArr []))) hello_messages)
     = Raise empty_response_error.
Proof.
  split.
  - exact (proj2 (proj2 (chat_empty_or_unusable_messages sample_cfg
             (net_always (ok_response (JObj [("messages", JArr [])])))
             hello_messages (JObj [("messages", JArr [])]) eq_refl)) eq_refl).
  - exact (proj1 (chat_empty_or_unusable_messages sample_cfg
             (net_always (ok_response (JArr []))) hello_messages (JArr []) eq_refl)
             eq_refl).
Defined.

(** C3 as stated fails: {"messages": []} has [messages] present and empty,
    and [chat] fails with the "could not extract" error, not with the "empty
    response" one; {"content": "plain text"} has no [messages] and [chat]
    returns its content. *)
Lemma chat_empty_or_unusable_messages_counterexample :
  messages_unusable [("messages", JArr [])] = true
  /\ delivered sample_cfg (net_always (ok_response (JObj [("messages", JArr [])])))
       hello_messages
     = Return (JObj [("messages", JArr [])])
  /\ fst (chat sample_cfg (net_always (ok_response (JObj [("messages", JArr [])])))
            hello_messages)
     = Raise could_not_extract_error
  /\ fst (chat sample_cfg (net_always (ok_response (JObj [("messages", JArr [])])))
            hello_messages)
     <> Raise empty_response_error
  /\ messages_unusable [("content", JStr "plain text")] = true
  /\ fst (chat sample_cfg
            (net_always (ok_response (JObj [("content", JStr "plain text")])))
            hello_messages)
     = Return "plain text".
Proof.
  repeat split; try reflexivity.
  vm_compute. discriminate.
Qed.

(** C4, as amended: on the empty object {} [chat] fails with the "empty
    response" internal error; the "could not extract assistant response"
    error is what a non-empty object with neither a [messages] nor a
    [content] field gets. *)
Theorem chat_empty_object
  (cfg : Config) (net : Network) (msgs : list ChatMessage) (response : json) :
  delivered cfg net msgs = Return response ->
  (response = JObj [] ->
   fst (chat cfg net msgs) = Raise empty_response_error)
  /\ (forall fields : list (string * json),
        response = JObj fields ->
        fields <> [] ->
        dict_get "messages" fields = None ->
        dict_get "content" fields = None ->
        fst (chat cfg net msgs) = Raise could_not_extract_error).
Proof.
  intros Hdel. rewrite (chat_delivered _ _ _ _ Hdel). split.
  - intros ->. reflexivity.
  - intros fields -> Hne Hmsgs Hcontent.
    rewrite (extract_object _ Hne). unfold assistant_entries. rewrite Hmsgs.
    rewrite content_fallback_object, Hcontent. reflexivity.
Qed.

Lemma chat_empty_object_witness :
  fst (chat sample_cfg (net_always (ok_response (JObj []))) hello_messages)
  = Raise empty_response_error
  /\ fst (chat sample_cfg
            (net_always (ok_response (JObj [("status", JStr "ok")])))
            hello_messages)
     = Raise could_not_extract_error.
Proof.
  split.
  - exact (proj1 (chat_empty_object sample_cfg (net_always (ok_response (JObj [])))
             hello_messages (JObj []) eq_refl) eq_refl).
  - refine (proj2 (chat_empty_object sample_cfg
              (net_always (ok_response (JObj [("status", JStr "ok")])))
              hello_messages (JObj [("status", JStr "ok")]) eq_refl)
              [("status", JStr "ok")] eq_refl _ eq_refl eq_refl).
    discriminate.
Defined.

(** C4 as stated fails: on {} [chat] fails with the "empty response" error,
    which is not the "could not extract" one. *)
Lemma chat_empty_object_counterexample :
  delivered sample_cfg (net_always (ok_response (JObj []))) hello_messages
  = Return (JObj [])
  /\ fst (chat sample_cfg (net_always (ok_response (JObj []))) hello_messages)
     = Raise empty_response_error
  /\ fst (chat sample_cfg (net_always (ok_response (JObj []))) hello_messages)
     <> Raise could_not_extract_error.
Proof.
  repeat split; try reflexivity.
  vm_compute. discriminate.
Qed.

(** C5: when no assistant-authored message is found in the decoded body (its
    [messages] is absent, is not a list, or has no entry authored by
    "GLEAN_AI") and its [content] is a plain string, [chat] returns that
    string unchanged. *)
Theorem chat_returns_content
  (cfg : Config) (net : Network) (msgs : list ChatMessage)
  (fields : list (string * json)) (s : string) :
  delivered cfg net msgs = Return (JObj fields) ->
  assistant_entries fields = [] ->
  dict_get "content" fields = Some (JStr s) ->
  fst (chat cfg net msgs) = Return s.
Proof.
  intros Hdel Hnone Hcontent.
  rewrite (chat_delivered _ _ _ _ Hdel).
  rewrite (extract_object _ (dict_get_nonempty _ _ _ Hcontent)), Hnone.
  rewrite content_fallback_object, Hcontent. reflexivity.
Qed.

Lemma chat_returns_content_witness :
  fst (chat sample_cfg
         (net_always (ok_response (JObj [("content", JStr "plain text")])))
         hello_messages)
  = Return "plain text".
Proof.
  apply (chat_returns_content sample_cfg
           (net_always (ok_response (JObj [("content", JStr "plain text")])))
           hello_messages [("content", JStr "plain text")] "plain text");
    reflexivity.
Defined.

(** *** The request builder *)

Lemma Fragment_roundtrip (fs : list Fragment) :
  all_some (map Fragment_of_json (map Fragment_dict fs)) = Some fs.
Proof.
  induction fs as [|[t] rest IH]; [reflexivity|].
  cbn [map all_some Fragment_dict Fragment_of_json text String.eqb].
  cbn. cbn in IH. now rewrite IH.
Qed.

Lemma ChatMessage_roundtrip (m : ChatMessage) :
  ChatMessage_of_json (ChatMessage_dict m) = Some m.
Proof.
  destruct m as [a fs ty]. unfold ChatMessage_dict, ChatMessage_of_json.
  cbn [author fragments messageType].
  replace (String.eqb "author" "author" && String.eqb "fragments" "fragments"
           && String.eqb "messageType" "messageType")%bool with true
    by reflexivity.
  now rewrite Fragment_roundtrip.
Qed.

(** C6: the request body [chat] builds is the object with the fields
    [messages], [saveChat = true] and [stream = false]; reading its messages
    back under the wire names [author], [fragments], [messageType] and [text]
    gives the messages it was built from, with their fragments and texts, in
    the original order; and that body is what every request issued carries. *)
Theorem request_body_carries_messages
  (cfg : Config) (net : Network) (msgs : list ChatMessage) :
  exists wire : list json,
    request_data msgs
    = JObj [("messages", JArr wire); ("saveChat", JBool true);
            ("stream", JBool false)]
    /\ map ChatMessage_of_json wire = map Some msgs
    /\ Forall (fun req => req_json req = Some (request_data msgs))
         (snd (chat cfg net msgs))
    /\ (api_key_missing cfg = false ->
        snd (chat cfg net msgs) = [chat_request cfg msgs]).
Proof.
  exists (map ChatMessage_dict msgs). split; [reflexivity|]. split.
  - rewrite map_map. apply map_ext. exact ChatMessage_roundtrip.
  - destruct (api_key_missing cfg) eqn:Hkey.
    + split; [|discriminate].
      unfold api_key_missing in Hkey. unfold chat, make_glean_request.
      destruct (GLEAN_API_KEY cfg) as [key|]; [rewrite Hkey|]; constructor.
    + split; [|intros _; now apply trace_with_key].
      rewrite (trace_with_key _ net msgs Hkey).
      constructor; [reflexivity | constructor].
Qed.

Lemma request_body_carries_messages_witness :
  exists wire : list json,
    request_data hello_messages
    = JObj [("messages", JArr wire); ("saveChat", JBool true);
            ("stream", JBool false)]
    /\ map ChatMessage_of_json wire = map Some hello_messages
    /\ snd (chat sample_cfg (net_always (TimedOut "timed out")) hello_messages)
       = [chat_request sample_cfg hello_messages].
Proof.
  destruct (request_body_carries_messages sample_cfg
              (net_always (TimedOut "timed out")) hello_messages)
    as (wire & Hbody & Hread & _ & Htrace).
  exists wire. split; [exact Hbody|]. split; [exact Hread|].
  apply Htrace. reflexivity.
Defined.

(** *** The transport *)

(** C7: when no API key is configured (the variable is unset or empty),
    every call of [chat] fails with an internal error and issues no
    request. *)
Theorem chat_without_api_key
  (cfg : Config) (net : Network) (msgs : list ChatMessage) :
  api_key_missing cfg = true ->
  chat cfg net msgs
  = (Raise (internal_error "GLEAN_API_KEY environment variable is not set"), []).
Proof.
  unfold api_key_missing, chat, make_glean_request.
  destruct (GLEAN_API_KEY cfg) as [key|]; [intros ->|intros _]; reflexivity.
Qed.

Lemma chat_without_api_key_witness :
  chat unset_cfg (net_always (ok_response (JObj [("content", JStr "x")])))
    hello_messages
  = (Raise (internal_error "GLEAN_API_KEY environment variable is not set"), []).
Proof.
  apply (chat_without_api_key unset_cfg
           (net_always (ok_response (JObj [("content", JStr "x")])))
           hello_messages).
  reflexivity.
Defined.

Lemma chat_responded (cfg : Config) (net : Network) (msgs : list ChatMessage)
  (r : Response) :
  api_key_missing cfg = false ->
  net (chat_request cfg msgs) = Responded r ->
  delivered cfg net msgs = request_handlers (check_response r).
Proof.
  intros Hkey Hnet. now rewrite (delivered_with_key _ _ _ Hkey), Hnet.
Qed.

Lemma chat_failed_status (cfg : Config) (net : Network) (msgs : list ChatMessage)
  (r : Response) :
  api_key_missing cfg = false ->
  net (chat_request cfg msgs) = Responded r ->
  is_success (status_code r) = false ->
  fst (chat cfg net msgs) = Raise (internal_error (status_message r)).
Proof.
  intros Hkey Hnet Hfail.
  rewrite chat_fst, (chat_responded _ _ _ _ Hkey Hnet).
  unfold check_response, raise_for_status, status_message. rewrite Hfail.
  destruct (status_code r =? 401); [reflexivity|].
  destruct (status_code r =? 403); [reflexivity|].
  destruct (status_code r =? 429); reflexivity.
Qed.

(** C8: with a key configured, a response with status 401 makes [chat] fail
    with "Invalid Glean API key", 403 with "Access forbidden - check API key
    permissions", 429 with "Rate limit exceeded", and any other status
    outside 200..299 with "Glean API error: " followed by the text of the
    status error; all four under the code INTERNAL_ERROR. *)
Theorem chat_status_errors
  (cfg : Config) (net : Network) (msgs : list ChatMessage) (r : Response) :
  api_key_missing cfg = false ->
  net (chat_request cfg msgs) = Responded r ->
  is_success (status_code r) = false ->
  exists msg : string,
    fst (chat cfg net msgs) = Raise (McpError (mkErrorData INTERNAL_ERROR msg))
    /\ (status_code r = 401 -> msg = "Invalid Glean API key")
    /\ (status_code r = 403 -> msg = "Access forbidden - check API key permissions")
    /\ (status_code r = 429 -> msg = "Rate limit exceeded")
    /\ (status_code r <> 401 -> status_code r <> 403 -> status_code r <> 429 ->
        msg = "Glean API error: " ++ status_error_text r).
Proof.
  intros Hkey Hnet Hfail.
  exists (status_message r).
  split; [now apply chat_failed_status|].
  unfold status_message.
  repeat split; intros;
    repeat match goal with
           | H : status_code r = _ |- _ => rewrite H
           | H : status_code r <> _ |- _ => apply Z.eqb_neq in H; rewrite H
           end; reflexivity.
Qed.

Lemma chat_status_errors_witness :
  fst (chat sample_cfg (net_always (status_response 401)) hello_messages)
  = Raise (internal_error "Invalid Glean API key")
  /\ fst (chat sample_cfg (net_always (status_response 500)) hello_messages)
     = Raise (internal_error "Glean API error: status error").
Proof.
  split.
  - destruct (chat_status_errors sample_cfg (net_always (status_response 401))
                hello_messages _ eq_refl eq_refl eq_refl)
      as (msg & Hchat & H401 & _).
    rewrite Hchat, (H401 eq_refl). reflexivity.
  - destruct (chat_status_errors sample_cfg (net_always (status_response 500))
                hello_messages _ eq_refl eq_refl eq_refl)
      as (msg & Hchat & _ & _ & _ & Hother).
    rewrite Hchat, Hother by discriminate. reflexivity.
Defined.

Lemma status_message_not_transport (r : Response) (t : string) :
  status_message r <> "Request to Glean API timed out"
  /\ status_message r <> "Failed to connect to Glean API: " ++ t.
Proof.
  unfold status_message.
  destruct (status_code r =? 401); [split; discriminate|].
  destruct (status_code r =? 403); [split; discriminate|].
  destruct (status_code r =? 429); split; discriminate.
Qed.

(** C9: with a key configured, a request that times out makes [chat] fail
    with the internal error "Request to Glean API timed out", and one that
    fails to connect with "Failed to connect to Glean API: " followed by the
    description of the transport failure; neither message is one that a
    failed HTTP status produces. *)
Theorem chat_transport_errors
  (cfg : Config) (net : Network) (msgs : list ChatMessage) (t : string) :
  api_key_missing cfg = false ->
  net (chat_request cfg msgs) = TimedOut t
  \/ net (chat_request cfg msgs) = ConnectFailed t ->
  exists msg : string,
    fst (chat cfg net msgs) = Raise (McpError (mkErrorData INTERNAL_ERROR msg))
    /\ (net (chat_request cfg msgs) = TimedOut t ->
        msg = "Request to Glean API timed out")
    /\ (net (chat_request cfg msgs) = ConnectFailed t ->
        msg = "Failed to connect to Glean API: " ++ t)
    /\ forall (cfg' : Config) (net' : Network) (msgs' : list ChatMessage)
              (r : Response),
         api_key_missing cfg' = false ->
         net' (chat_request cfg' msgs') = Responded r ->
         is_success (status_code r) = false ->
         fst (chat cfg' net' msgs') <> fst (chat cfg net msgs).
Proof.
  intros Hkey Hnet.
  assert (Hdistinct : forall msg,
             msg = "Request to Glean API timed out"
             \/ msg = "Failed to connect to Glean API: " ++ t ->
             fst (chat cfg net msgs) = Raise (internal_error msg) ->
             forall cfg' net' msgs' r,
               api_key_missing cfg' = false ->
               net' (chat_request cfg' msgs') = Responded r ->
               is_success (status_code r) = false ->
               fst (chat cfg' net' msgs') <> fst (chat cfg net msgs)).
  { intros msg Hmsg Hchat cfg' net' msgs' r Hkey' Hnet' Hfail.
    rewrite (chat_failed_status _ _ _ _ Hkey' Hnet' Hfail), Hchat.
    intros Heq. injection Heq as Heq.
    destruct (status_message_not_transport r t) as [Ht Hc].
    destruct Hmsg as [-> | ->]; [now apply Ht | now apply Hc]. }
  pose proof (chat_fst cfg net msgs) as Hchat.
  rewrite (delivered_with_key _ _ _ Hkey) in Hchat.
  destruct Hnet as [Hnet | Hnet]; rewrite Hnet in Hchat; cbn in Hchat.
  - exists "Request to Glean API timed out".
    split; [exact Hchat|]. split; [reflexivity|].
    split; [intros Habs; rewrite Hnet in Habs; discriminate|].
    apply (Hdistinct _ (or_introl eq_refl) Hchat).
  - exists ("Failed to connect to Glean API: " ++ t).
    split; [exact Hchat|].
    split; [intros Habs; rewrite Hnet in Habs; discriminate|].
    split; [reflexivity|].
    apply (Hdistinct _ (or_intror eq_refl) Hchat).
Qed.

Lemma chat_transport_errors_witness :
  fst (chat sample_cfg (net_always (TimedOut "read timeout")) hello_messages)
  = Raise (internal_error "Request to Glean API timed out")
  /\ fst (chat sample_cfg (net_always (ConnectFailed "connection refused"))
            hello_messages)
     = Raise (internal_error "Failed to connect to Glean API: connection refused").
Proof.
  split.
  - destruct (chat_transport_errors sample_cfg
                (net_always (TimedOut "read timeout")) hello_messages
                "read timeout" eq_refl (or_introl eq_refl))
      as (msg & Hchat & Htimeout & _).
    rewrite Hchat, (Htimeout eq_refl). reflexivity.
  - destruct (chat_transport_errors sample_cfg
                (net_always (ConnectFailed "connection refused")) hello_messages
                "connection refused" eq_refl (or_intror eq_refl))
      as (msg & Hchat & _ & Hconnect & _).
    rewrite Hchat, (Hconnect eq_refl). reflexivity.
Defined.

(** *** Every failure of [chat] is an internal error *)

Lemma raises_internal_bind {A B} (c : result A) (k : A -> result B) :
  raises_internal c -> (forall a, raises_internal (k a)) ->
  raises_internal (x <- c ;; k x).
Proof.
  intros Hc Hk. destruct c as [a|e]; [apply Hk | exact Hc].
Qed.

Lemma py_in_internal (key : string) (x : json) : raises_internal (py_in key x).
Proof. destruct x; exact I. Qed.

Lemma py_getitem_internal (x : json) (key : string) :
  raises_internal (py_getitem x key).
Proof.
  destruct x; try exact I. cbn. now destruct (dict_get key fields).
Qed.

Lemma py_iter_internal (x : json) : raises_internal (py_iter x).
Proof. destruct x; exact I. Qed.

Lemma collect_fragments_internal (frags acc : list json) :
  match snd (collect_fragments frags acc) with
  | Some e => internal_or_python e
  | None => True
  end.
Proof.
  revert acc. induction frags as [|fragment rest IH]; intros acc; [exact I|].
  cbn [collect_fragments].
  pose proof (py_in_internal "text" fragment) as Hin.
  destruct (py_in "text" fragment) as [[|]|e]; [|apply IH|exact Hin].
  pose proof (py_getitem_internal fragment "text") as Hget.
  destruct (py_getitem fragment "text") as [t|e]; [apply IH | exact Hget].
Qed.

Lemma process_message_internal (entry : json) (acc : list json) :
  match snd (process_message entry acc) with
  | Some e => internal_or_python e
  | None => True
  end.
Proof.
  unfold process_message.
  pose proof (py_in_internal "fragments" entry) as Hin.
  destruct (py_in "fragments" entry) as [[|]|e]; [|exact I|exact Hin].
  pose proof (py_getitem_internal entry "fragments") as Hget.
  destruct (py_getitem entry "fragments") as [fs|e]; [|exact Hget].
  pose proof (py_iter_internal fs) as Hiter.
  destruct (py_iter fs) as [frags|e]; [|exact Hiter].
  apply collect_fragments_internal.
Qed.

Lemma parse_loop_internal (entries acc : list json) :
  raises_internal (parse_loop entries acc).
Proof.
  revert acc. induction entries as [|entry rest IH]; intros acc; [exact I|].
  cbn [parse_loop].
  pose proof (process_message_internal entry acc) as Hp.
  destruct (process_message entry acc) as [acc' [e|]]; [|apply IH].
  destruct e; try exact Hp. apply IH.
Qed.

Lemma join_from_internal (sep : string) (items : list json) (i : nat) :
  raises_internal (join_from i sep items).
Proof.
  revert i. induction items as [|v rest IH]; intros i; [exact I|].
  destruct v; try exact I.
  destruct rest as [|v' rest']; [exact I|].
  change (raises_internal (tl <- join_from (S i) sep (v' :: rest') ;;
                           Return (s ++ sep ++ tl))).
  apply raises_internal_bind; [apply IH | intros; exact I].
Qed.

Lemma content_fallback_internal (response : json) :
  raises_internal (content_fallback response).
Proof.
  unfold content_fallback.
  apply raises_internal_bind; [apply py_in_internal|]. intros [|]; [|reflexivity].
  apply raises_internal_bind; [apply py_getitem_internal|].
  intros c. destruct c; reflexivity.
Qed.

Lemma extract_internal (response : json) :
  raises_internal (extract_assistant_response response).
Proof.
  unfold extract_assistant_response.
  destruct (negb (truthy response)); [reflexivity|].
  apply raises_internal_bind; [apply py_in_internal|].
  intros [|]; [|apply content_fallback_internal].
  apply raises_internal_bind; [apply py_getitem_internal|].
  intros m. destruct m; try apply content_fallback_internal.
  destruct (filter is_assistant items); [apply content_fallback_internal|].
  apply raises_internal_bind; [apply parse_loop_internal|].
  intros texts. apply join_from_internal.
Qed.

Lemma delivered_internal (cfg : Config) (net : Network) (msgs : list ChatMessage) :
  raises_internal (delivered cfg net msgs).
Proof.
  unfold delivered, make_glean_request.
  destruct (GLEAN_API_KEY cfg) as [key|]; [|reflexivity].
  destruct (String.eqb key ""); [reflexivity|]. cbn [fst].
  destruct (net _) as [t|t|r]; try reflexivity.
  unfold check_response, raise_for_status, response_json.
  destruct (status_code r =? 401); [reflexivity|].
  destruct (status_code r =? 403); [reflexivity|].
  destruct (status_code r =? 429); [reflexivity|].
  destruct (is_success (status_code r)); [|reflexivity].
  destruct (body r); exact I.
Qed.

(** Whatever the configuration, the network and the messages, [chat]
    returns a string or raises an [McpError] with the code INTERNAL_ERROR. *)
Lemma chat_raises_internal_only
  (cfg : Config) (net : Network) (msgs : list ChatMessage) :
  match fst (chat cfg net msgs) with
  | Return _ => True
  | Raise e => exists msg : string, e = internal_error msg
  end.
Proof.
  rewrite chat_fst.
  pose proof (raises_internal_bind _ extract_assistant_response
                (delivered_internal cfg net msgs) extract_internal) as H.
  destruct (r <- delivered cfg net msgs ;; extract_assistant_response r)
    as [s|e]; [exact I|].
  destruct e as [[c m]| | | | | | |]; cbn in *;
    try (eexists; reflexivity).
  subst c. eexists; reflexivity.
Qed.

(** ** Further properties of the transport *)

Lemma success_not_special (status : Z) :
  is_success status = true ->
  (status =? 401) = false /\ (status =? 403) = false /\ (status =? 429) = false.
Proof.
  unfold is_success. intros H. apply andb_true_iff in H as [Hlo Hhi].
  apply Z.leb_le in Hlo, Hhi.
  repeat split; apply Z.eqb_neq; lia.
Qed.

Lemma check_response_success (r : Response) :
  is_success (status_code r) = true ->
  check_response r = response_json r.
Proof.
  intros Hok. destruct (success_not_special _ Hok) as (H1 & H2 & H3).
  unfold check_response, raise_for_status. now rewrite H1, H2, H3, Hok.
Qed.

Lemma check_response_failure (r : Response) :
  is_success (status_code r) = false ->
  exists msg, request_handlers (check_response r) = Raise (internal_error msg).
Proof.
  intros Hfail. unfold check_response, raise_for_status. rewrite Hfail.
  destruct (status_code r =? 401); [eexists; reflexivity|].
  destruct (status_code r =? 403); [eexists; reflexivity|].
  destruct (status_code r =? 429); eexists; reflexivity.
Qed.

(** What [make_glean_request] gives, case by case. *)
Lemma make_glean_request_cases (cfg : Config) (net : Network)
  (endpoint method : string) (data : option json) :
  (api_key_missing cfg = true
   /\ make_glean_request cfg net endpoint method data
      = (Raise (internal_error "GLEAN_API_KEY environment variable is not set"), []))
  \/ exists key : string,
       GLEAN_API_KEY cfg = Some key /\ key <> ""
       /\ snd (make_glean_request cfg net endpoint method data)
          = [build_request cfg key endpoint method data]
       /\ ((exists msg,
              (forall r, net (build_request cfg key endpoint method data)
                         = Responded r -> is_success (status_code r) = false)
              /\ fst (make_glean_request cfg net endpoint method data)
                 = Raise (internal_error msg))
           \/ exists r,
                net (build_request cfg key endpoint method data) = Responded r
                /\ is_success (status_code r) = true
                /\ fst (make_glean_request cfg net endpoint method data)
                   = match body r with
                     | Json j => Return j
                     | NotJson t => Raise (JSONDecodeError t)
                     end).
Proof.
  unfold api_key_missing, make_glean_request.
  destruct (GLEAN_API_KEY cfg) as [key|]; [|left; split; reflexivity].
  destruct (String.eqb key "") eqn:Hkey; [left; split; reflexivity|].
  right. exists key. apply String.eqb_neq in Hkey.
  split; [reflexivity|]. split; [exact Hkey|]. split; [reflexivity|].
  cbn [fst].
  destruct (net (build_request cfg key endpoint method data)) as [t|t|r] eqn:Hnet.
  - left. eexists. split; [discriminate | reflexivity].
  - left. eexists. split; [discriminate | reflexivity].
  - destruct (is_success (status_code r)) eqn:Hok.
    + right. exists r. split; [reflexivity|]. split; [exact Hok|].
      rewrite (check_response_success _ Hok). unfold response_json.
      destruct (body r); reflexivity.
    + left. destruct (check_response_failure _ Hok) as [msg Hmsg].
      exists msg. split; [|exact Hmsg].
      intros r' Hr'. injection Hr' as <-. exact Hok.
Qed.

(** X1: [make_glean_request] returns a decoded body exactly when a key is
    configured, the request is answered with a status in 200..299, and the
    body of the answer is JSON; the value returned is that body. *)
Theorem make_glean_request_returns_iff (cfg : Config) (net : Network)
  (endpoint method : string) (data : option json) (j : json) :
  fst (make_glean_request cfg net endpoint method data) = Return j
  <-> exists (key : string) (r : Response),
        GLEAN_API_KEY cfg = Some key /\ key <> ""
        /\ net (build_request cfg key endpoint method data) = Responded r
        /\ is_success (status_code r) = true
        /\ body r = Json j.
Proof.
  destruct (make_glean_request_cases cfg net endpoint method data)
    as [[Hmiss Heq] | (key & Hkey & Hne & _ & Hres)].
  - split.
    + rewrite Heq. discriminate.
    + intros (key & r & Hkey & Hne & _). unfold api_key_missing in Hmiss.
      rewrite Hkey in Hmiss. apply String.eqb_eq in Hmiss. contradiction.
  - destruct Hres as [(msg & Hfail & Hraise) | (r & Hnet & Hok & Hret)].
    + split.
      * rewrite Hraise. discriminate.
      * intros (key' & r & Hkey' & _ & Hnet & Hok & _).
        rewrite Hkey in Hkey'. injection Hkey' as <-.
        rewrite (Hfail _ Hnet) in Hok. discriminate.
    + split.
      * intros Hj. rewrite Hret in Hj. exists key, r.
        destruct (body r); [injection Hj as ->; auto | discriminate].
      * intros (key' & r' & Hkey' & _ & Hnet' & _ & Hbody).
        rewrite Hkey in Hkey'. injection Hkey' as <-.
        rewrite Hnet in Hnet'. injection Hnet' as <-.
        rewrite Hret, Hbody. reflexivity.
Qed.

Lemma make_glean_request_returns_iff_witness :
  fst (make_glean_request sample_cfg
         (net_always (ok_response (JObj [("content", JStr "x")])))
         "chat" "POST" None)
  = Return (JObj [("content", JStr "x")]).
Proof.
  apply (proj2 (make_glean_request_returns_iff sample_cfg
                  (net_always (ok_response (JObj [("content", JStr "x")])))
                  "chat" "POST" None (JObj [("content", JStr "x")]))).
  exists "secret", (mkResponse 200 "" (Json (JObj [("content", JStr "x")]))).
  repeat split; try reflexivity. discriminate.
Defined.



(** X3: [chat] issues at most one request, the same whatever the network
    answers (nothing is retried); a request issued is a POST to the base URL
    followed by "/chat", with the bearer key and the JSON content type, the
    serialized messages as body and a timeout of 300 seconds. *)
Theorem chat_issues_one_request_at_most
  (cfg : Config) (net net' : Network) (msgs : list ChatMessage) :
  snd (chat cfg net msgs) = snd (chat cfg net' msgs)
  /\ (List.length (snd (chat cfg net msgs)) <= 1)%nat
  /\ forall req : Request,
       In req (snd (chat cfg net msgs)) ->
       exists key : string,
         GLEAN_API_KEY cfg = Some key /\ key <> ""
         /\ req = mkRequest "POST" (GLEAN_BASE_URL cfg ++ "/chat")
                    [("Authorization", "Bearer " ++ key);
                     ("Content-Type", "application/json")]
                    (Some (request_data msgs)) 300.
Proof.
  unfold chat, make_glean_request.
  destruct (GLEAN_API_KEY cfg) as [key|].
  - destruct (String.eqb key "") eqn:Hkey.
    + cbn. repeat split; [lia | intros req []].
    + cbn. repeat split; [lia|].
      intros req [<- | []]. exists key. apply String.eqb_neq in Hkey.
      repeat split; auto.
  - cbn. repeat split; [lia | intros req []].
Qed.

Lemma chat_issues_one_request_at_most_witness :
  exists key : string,
    GLEAN_API_KEY sample_cfg = Some key /\ key <> ""
    /\ chat_request sample_cfg hello_messages
       = mkRequest "POST" (GLEAN_BASE_URL sample_cfg ++ "/chat")
           [("Authorization", "Bearer " ++ key);
            ("Content-Type", "application/json")]
           (Some (request_data hello_messages)) 300.
Proof.
  apply (proj2 (proj2 (chat_issues_one_request_at_most sample_cfg
                         (net_always (TimedOut "t")) (net_always (TimedOut "t"))
                         hello_messages))).
  left. reflexivity.
Defined.

(** X4: with a key configured, an answer with a status in 200..299 whose
    body is not JSON makes [chat] fail with the internal error "Error
    processing chat request: " followed by the description of the decode
    error. *)
Theorem chat_undecodable_body
  (cfg : Config) (net : Network) (msgs : list ChatMessage)
  (r : Response) (t : string) :
  api_key_missing cfg = false ->
  net (chat_request cfg msgs) = Responded r ->
  is_success (status_code r) = true ->
  body r = NotJson t ->
  fst (chat cfg net msgs)
  = Raise (internal_error ("Error processing chat request: " ++ t)).
Proof.
  intros Hkey Hnet Hok Hbody.
  rewrite chat_fst, (chat_responded _ _ _ _ Hkey Hnet).
  rewrite (check_response_success _ Hok). unfold response_json.
  rewrite Hbody. reflexivity.
Qed.

Lemma chat_undecodable_body_witness :
  fst (chat sample_cfg (net_always (undecodable_response "Expecting value"))
         hello_messages)
  = Raise (internal_error "Error processing chat request: Expecting value").
Proof.
  apply (chat_undecodable_body sample_cfg
           (net_always (undecodable_response "Expecting value")) hello_messages
           (mkResponse 200 "" (NotJson "Expecting value")) "Expecting value");
    reflexivity.
Defined.

(** ** Further properties of parse_response *)

Lemma collect_fragments_acc (frags acc : list json) :
  collect_fragments frags acc
  = ((acc ++ fst (collect_fragments frags []))%list,
     snd (collect_fragments frags [])).
Proof.
  revert acc.
  assert (Hgen : forall acc0 acc,
             collect_fragments frags (acc ++ acc0)
             = ((acc ++ fst (collect_fragments frags acc0))%list,
                snd (collect_fragments frags acc0))).
  { induction frags as [|fragment rest IH]; intros acc0 acc; [reflexivity|].
    cbn [collect_fragments].
    destruct (py_in "text" fragment) as [[|]|e]; [|apply IH|reflexivity].
    destruct (py_getitem fragment "text") as [t|e]; [|reflexivity].
    rewrite <- app_assoc. apply IH. }
  intros acc. rewrite <- (Hgen [] acc), app_nil_r. reflexivity.
Qed.

Lemma process_message_acc (entry : json) (acc : list json) :
  process_message entry acc
  = ((acc ++ fst (process_message entry []))%list,
     snd (process_message entry [])).
Proof.
  unfold process_message.
  destruct (py_in "fragments" entry) as [[|]|e];
    [|now rewrite app_nil_r|now rewrite app_nil_r].
  destruct (py_getitem entry "fragments") as [fs|e]; [|now rewrite app_nil_r].
  destruct (py_iter fs) as [frags|e]; [|now rewrite app_nil_r].
  apply collect_fragments_acc.
Qed.

Lemma parse_loop_acc (entries acc : list json) :
  parse_loop entries acc
  = texts <- parse_loop entries [] ;; Return (acc ++ texts)%list.
Proof.
  revert acc. induction entries as [|entry rest IH]; intros acc.
  - cbn. now rewrite app_nil_r.
  - cbn [parse_loop]. rewrite (process_message_acc entry acc).
    destruct (process_message entry []) as [d oe]. cbn [fst snd app].
    assert (Hcont : parse_loop rest (acc ++ d)
                    = texts <- parse_loop rest d ;; Return (acc ++ texts)%list).
    { rewrite (IH (acc ++ d)%list), (IH d).
      destruct (parse_loop rest []) as [t|e]; [|reflexivity].
      cbn. now rewrite app_assoc. }
    destruct oe as [e|]; [|exact Hcont].
    destruct e; try reflexivity. exact Hcont.
Qed.

Lemma parse_loop_app (l1 l2 acc : list json) :
  parse_loop (l1 ++ l2) acc = acc' <- parse_loop l1 acc ;; parse_loop l2 acc'.
Proof.
  revert acc. induction l1 as [|entry rest IH]; intros acc; [reflexivity|].
  cbn [app parse_loop].
  destruct (process_message entry acc) as [acc' [e|]]; [|apply IH].
  destruct e; try reflexivity. apply IH.
Qed.

(** X5: parsing a concatenation is parsing the two parts in turn and
    appending the texts; an exception of the first part, else of the second,
    is the exception of the whole. *)
Theorem parse_response_app (l1 l2 : list json) :
  parse_response (l1 ++ l2)
  = t1 <- parse_response l1 ;;
    t2 <- parse_response l2 ;;
    Return (t1 ++ t2)%list.
Proof.
  unfold parse_response. rewrite parse_loop_app.
  destruct (parse_loop l1 []) as [t1|e]; [|reflexivity].
  cbn [bind]. apply parse_loop_acc.
Qed.

Lemma collect_fragments_type_error (frags acc : list json) (e : exn) :
  snd (collect_fragments frags acc) = Some e -> exists t, e = TypeError t.
Proof.
  revert acc. induction frags as [|fragment rest IH]; intros acc; [discriminate|].
  cbn [collect_fragments].
  destruct fragment as [| | | | s |items|fields]; cbn [py_in];
    try (intros H; injection H as <-; eexists; reflexivity).
  - destruct (substring_of "text" s); [|apply IH].
    cbn. intros H; injection H as <-; eexists; reflexivity.
  - destruct (existsb (fun v => eq_str v "text") items); [|apply IH].
    cbn. intros H; injection H as <-; eexists; reflexivity.
  - unfold dict_has. cbn [py_getitem].
    destruct (dict_get "text" fields); apply IH.
Qed.

Lemma process_message_type_error (entry : json) (acc : list json) (e : exn) :
  snd (process_message entry acc) = Some e -> exists t, e = TypeError t.
Proof.
  unfold process_message.
  destruct entry as [| | | | s |items|fields]; cbn [py_in];
    try (intros H; injection H as <-; eexists; reflexivity).
  - destruct (substring_of "fragments" s); [|discriminate].
    cbn. intros H; injection H as <-; eexists; reflexivity.
  - destruct (existsb (fun v => eq_str v "fragments") items); [|discriminate].
    cbn. intros H; injection H as <-; eexists; reflexivity.
  - unfold dict_has. cbn [py_getitem].
    destruct (dict_get "fragments" fields) as [fs|]; [|discriminate].
    destruct fs; cbn [py_iter];
      try (intros H; injection H as <-; eexists; reflexivity);
      apply collect_fragments_type_error.
Qed.

(** X6: the [except json.JSONDecodeError: continue] of [parse_response]
    never applies.  An exception raised while an entry is processed is a
    [TypeError], and it ends the whole parse: no later entry is looked at
    and the texts collected so far are lost. *)
Theorem parse_response_never_skips
  (before after : list json) (entry : json) (texts : list json) (e : exn) :
  parse_response before = Return texts ->
  snd (process_message entry texts) = Some e ->
  (exists t : string, e = TypeError t)
  /\ parse_response (before ++ entry :: after) = Raise e.
Proof.
  intros Hbefore He.
  destruct (process_message_type_error _ _ _ He) as [t ->].
  split; [eexists; reflexivity|].
  unfold parse_response in *. rewrite parse_loop_app, Hbefore.
  cbn [bind parse_loop].
  destruct (process_message entry texts) as [acc oe]. cbn in He. now subst oe.
Qed.

Lemma parse_response_never_skips_witness :
  (exists t : string,
     TypeError "argument of type 'NoneType' is not iterable" = TypeError t)
  /\ parse_response
       ([assistant_entry ["a"]]
        ++ JObj [("fragments", JArr [JObj [("text", JStr "b")]; JNull])]
        :: [assistant_entry ["c"]])
     = Raise (TypeError "argument of type 'NoneType' is not iterable").
Proof.
  apply (parse_response_never_skips [assistant_entry ["a"]]
           [assistant_entry ["c"]]
           (JObj [("fragments", JArr [JObj [("text", JStr "b")]; JNull])])
           [JStr "a"]);
    reflexivity.
Defined.

(** ** Further properties of the extraction *)

Lemma collect_fragments_objects (frags acc : list json) :
  forallb is_object frags = true ->
  collect_fragments frags acc
  = ((acc ++ flat_map fragment_text_value frags)%list, None).
Proof.
  revert acc. induction frags as [|fragment rest IH]; intros acc Hobj.
  - cbn. now rewrite app_nil_r.
  - cbn [forallb] in Hobj. apply andb_true_iff in Hobj as [Hf Hrest].
    destruct fragment as [| | | | |items|fields]; try discriminate Hf.
    cbn [collect_fragments py_in py_getitem flat_map fragment_text_value].
    unfold dict_has.
    destruct (dict_get "text" fields) as [v|].
    + rewrite (IH _ Hrest), <- app_assoc. reflexivity.
    + now rewrite (IH _ Hrest).
Qed.

Lemma process_message_objects (entry : json) (acc : list json) :
  fragments_are_objects entry = true ->
  process_message entry acc = ((acc ++ entry_text_values entry)%list, None).
Proof.
  intros Hobj.
  destruct entry as [| | | | |items|fields]; try discriminate Hobj.
  unfold process_message, entry_text_values.
  cbn [py_in py_getitem entry_fragments fragments_are_objects] in *.
  unfold dict_has.
  destruct (dict_get "fragments" fields) as [fs|].
  - destruct fs; try discriminate Hobj.
    cbn [py_iter]. now apply collect_fragments_objects.
  - cbn. now rewrite app_nil_r.
Qed.

Lemma parse_loop_objects (entries acc : list json) :
  forallb fragments_are_objects entries = true ->
  parse_loop entries acc
  = Return (acc ++ flat_map entry_text_values entries)%list.
Proof.
  revert acc. induction entries as [|entry rest IH]; intros acc Hobj.
  - cbn. now rewrite app_nil_r.
  - cbn [forallb] in Hobj. apply andb_true_iff in Hobj as [He Hrest].
    cbn [parse_loop flat_map]. rewrite (process_message_objects _ _ He).
    rewrite (IH _ Hrest), app_assoc. reflexivity.
Qed.

Lemma join_from_type_error (sep : string) (items : list json) (i : nat) (e : exn) :
  join_from i sep items = Raise e -> exists t, e = TypeError t.
Proof.
  revert i. induction items as [|v rest IH]; intros i; [discriminate|].
  destruct v; try (intros H; injection H as <-; eexists; reflexivity).
  destruct rest as [|v' rest']; [discriminate|].
  change (join_from i sep (JStr s :: v' :: rest'))
    with (tl <- join_from (S i) sep (v' :: rest') ;; Return (s ++ sep ++ tl)).
  destruct (join_from (S i) sep (v' :: rest')) as [tl|e'] eqn:Hrest;
    [discriminate|].
  intros H. injection H as <-. exact (IH _ Hrest).
Qed.

Lemma join_from_non_string (sep : string) (items : list json) (i : nat) :
  existsb (fun v => negb (is_string v)) items = true ->
  exists t, join_from i sep items = Raise (TypeError t).
Proof.
  revert i. induction items as [|v rest IH]; intros i Hex; [discriminate|].
  destruct v; try (eexists; reflexivity).
  cbn [existsb is_string negb orb] in Hex.
  destruct rest as [|v' rest']; [discriminate|].
  change (join_from i sep (JStr s :: v' :: rest'))
    with (tl <- join_from (S i) sep (v' :: rest') ;; Return (s ++ sep ++ tl)).
  destruct (IH (S i) Hex) as [t ->]. eexists; reflexivity.
Qed.

Lemma existsb_nonempty {A} (p : A -> bool) (f : json -> list A) (l : list json) :
  existsb p (flat_map f l) = true -> l <> [].
Proof.
  destruct l; [discriminate | discriminate].
Qed.

(** X7: when the fragments of the assistant-authored entries are objects,
    one [text] that is not a string (a null, a number, a list, an object)
    makes the whole call fail with the internal error "Error processing chat
    request: ...", whatever the other texts are. *)
Theorem chat_fails_on_non_string_text
  (cfg : Config) (net : Network) (msgs : list ChatMessage)
  (fields : list (string * json)) (items : list json) :
  delivered cfg net msgs = Return (JObj fields) ->
  dict_get "messages" fields = Some (JArr items) ->
  forallb fragments_are_objects (filter is_assistant items) = true ->
  existsb (fun v => negb (is_string v))
    (flat_map entry_text_values (filter is_assistant items)) = true ->
  exists t : string,
    fst (chat cfg net msgs)
    = Raise (internal_error ("Error processing chat request: " ++ t)).
Proof.
  intros Hdel Hmsgs Hobj Hbad.
  rewrite (chat_delivered _ _ _ _ Hdel).
  rewrite (extract_object _ (dict_get_nonempty _ _ _ Hmsgs)).
  rewrite (assistant_entries_messages _ _ Hmsgs).
  pose proof (existsb_nonempty _ _ _ Hbad) as Hne.
  destruct (filter is_assistant items) as [|entry rest] eqn:Hfilter;
    [congruence|].
  unfold parse_response, str_join.
  rewrite (parse_loop_objects _ _ Hobj). cbn [bind app].
  destruct (join_from_non_string separator _ 0 Hbad) as [t ->].
  exists t. reflexivity.
Qed.

Lemma chat_fails_on_non_string_text_witness :
  exists t : string,
    fst (chat sample_cfg (net_always (ok_response null_text_body)) hello_messages)
    = Raise (internal_error ("Error processing chat request: " ++ t)).
Proof.
  apply (chat_fails_on_non_string_text sample_cfg
           (net_always (ok_response null_text_body)) hello_messages
           [("messages",
             JArr [JObj [("author", JStr "GLEAN_AI");
                         ("fragments",
                          JArr [JObj [("text", JStr "hello")];
                                JObj [("text", JNull)]])]])]
           [JObj [("author", JStr "GLEAN_AI");
                  ("fragments",
                   JArr [JObj [("text", JStr "hello")];
                         JObj [("text", JNull)]])]]);
    reflexivity.
Defined.

Lemma chat_handlers_return (r : result string) (s : string) :
  chat_handlers r = Return s -> r = Return s.
Proof.
  destruct r as [s'|e]; [intros H; exact H|].
  destruct e; discriminate.
Qed.

Lemma extract_returns_object (response : json) (s : string) :
  extract_assistant_response response = Return s ->
  exists fields, response = JObj fields /\ fields <> [].
Proof.
  unfold extract_assistant_response, content_fallback.
  destruct response as [|b|n|m e|s0|items|fields]; cbn [truthy].
  - discriminate.
  - destruct b; discriminate.
  - destruct (n =? 0); discriminate.
  - destruct (m =? 0); discriminate.
  - destruct (String.eqb s0 ""); [discriminate|]. cbn [negb py_in bind py_getitem].
    destruct (substring_of "messages" s0); [discriminate|].
    destruct (substring_of "content" s0); discriminate.
  - destruct items as [|v rest]; [discriminate|]. cbn [negb py_in bind py_getitem].
    destruct (existsb (fun v0 => eq_str v0 "messages") (v :: rest)); [discriminate|].
    destruct (existsb (fun v0 => eq_str v0 "content") (v :: rest)); discriminate.
  - destruct fields as [|kv rest]; [discriminate|].
    intros _. eexists. split; [reflexivity | discriminate].
Qed.

(** X8: a string returned by [chat] has one of two origins.  The decoded
    body is a non-empty object, and either it has assistant-authored entries
    and the string is the join of their parsed texts, or it has none and the
    string is its [content] field.  In particular a body that is not an
    object never yields a string. *)
Theorem chat_returned_string_origin
  (cfg : Config) (net : Network) (msgs : list ChatMessage) (s : string) :
  fst (chat cfg net msgs) = Return s ->
  exists fields : list (string * json),
    delivered cfg net msgs = Return (JObj fields)
    /\ fields <> []
    /\ ((assistant_entries fields <> []
         /\ (texts <- parse_response (assistant_entries fields) ;;
             str_join separator texts) = Return s)
        \/ (assistant_entries fields = []
            /\ dict_get "content" fields = Some (JStr s))).
Proof.
  rewrite chat_fst. intros H. apply chat_handlers_return in H.
  destruct (delivered cfg net msgs) as [response|e]; [|discriminate].
  cbn [bind] in H.
  destruct (extract_returns_object _ _ H) as (fields & -> & Hne).
  exists fields. split; [reflexivity|]. split; [exact Hne|].
  rewrite (extract_object _ Hne) in H.
  destruct (assistant_entries fields) as [|entry rest].
  - right. split; [reflexivity|].
    rewrite content_fallback_object in H.
    destruct (dict_get "content" fields) as [c|]; [|discriminate].
    destruct c; try discriminate. now injection H as ->.
  - left. split; [discriminate | exact H].
Qed.

Lemma chat_returned_string_origin_witness :
  exists fields : list (string * json),
    delivered sample_cfg
      (net_always (ok_response (JObj [("content", JStr "plain text")])))
      hello_messages = Return (JObj fields)
    /\ fields <> []
    /\ ((assistant_entries fields <> []
         /\ (texts <- parse_response (assistant_entries fields) ;;
             str_join separator texts) = Return "plain text")
        \/ (assistant_entries fields = []
            /\ dict_get "content" fields = Some (JStr "plain text"))).
Proof.
  apply (chat_returned_string_origin sample_cfg
           (net_always (ok_response (JObj [("content", JStr "plain text")])))
           hello_messages "plain text").
  reflexivity.
Defined.

(** X9: of a non-empty decoded object, [chat] reads the assistant-authored
    entries of [messages] and the [content] field, and nothing else: two
    bodies that agree on both give the same result, whatever their other
    fields and their other entries of [messages]. *)
Theorem chat_reads_assistant_entries_and_content
  (cfg cfg' : Config) (net net' : Network) (msgs msgs' : list ChatMessage)
  (fields fields' : list (string * json)) :
  delivered cfg net msgs = Return (JObj fields) ->
  delivered cfg' net' msgs' = Return (JObj fields') ->
  fields <> [] ->
  fields' <> [] ->
  assistant_entries fields = assistant_entries fields' ->
  dict_get "content" fields = dict_get "content" fields' ->
  fst (chat cfg net msgs) = fst (chat cfg' net' msgs').
Proof.
  intros Hdel Hdel' Hne Hne' Hsame Hcontent.
  rewrite (chat_delivered _ _ _ _ Hdel), (chat_delivered _ _ _ _ Hdel').
  rewrite (extract_object _ Hne), (extract_object _ Hne').
  rewrite !content_fallback_object, Hsame, Hcontent. reflexivity.
Qed.

Lemma chat_reads_assistant_entries_and_content_witness :
  fst (chat sample_cfg
         (net_always (ok_response
            (JObj [("messages", JArr [JInt 7; assistant_entry ["a"]; JNull]);
                   ("chatId", JStr "c1")])))
         hello_messages)
  = fst (chat sample_cfg
           (net_always (ok_response
              (JObj [("messages", JArr [assistant_entry ["a"]])])))
           []).
Proof.
  apply (chat_reads_assistant_entries_and_content sample_cfg sample_cfg
           (net_always (ok_response
              (JObj [("messages", JArr [JInt 7; assistant_entry ["a"]; JNull]);
                     ("chatId", JStr "c1")])))
           (net_always (ok_response
              (JObj [("messages", JArr [assistant_entry ["a"]])])))
           hello_messages []
           [("messages", JArr [JInt 7; assistant_entry ["a"]; JNull]);
            ("chatId", JStr "c1")]
           [("messages", JArr [assistant_entry ["a"]])]);
    try reflexivity; discriminate.
Defined.

(** ** The failures of [chat] *)

Lemma parse_loop_type_error (entries acc : list json) (e : exn) :
  parse_loop entries acc = Raise e -> exists t, e = TypeError t.
Proof.
  revert acc. induction entries as [|entry rest IH]; intros acc; [discriminate|].
  cbn [parse_loop].
  pose proof (process_message_type_error entry acc) as Hp.
  destruct (process_message entry acc) as [acc' [e'|]]; [|apply IH].
  destruct (Hp e' eq_refl) as [t ->].
  intros H. injection H as <-. eexists; reflexivity.
Qed.

Lemma extract_raise_forms (response : json) (e : exn) :
  extract_assistant_response response = Raise e ->
  (truthy response = false /\ e = empty_response_error)
  \/ (truthy response = true
      /\ (e = could_not_extract_error \/ exists t, e = TypeError t)).
Proof.
  destruct (truthy response) eqn:Htruthy.
  2:{ unfold extract_assistant_response. rewrite Htruthy.
      intros H. injection H as <-. left. split; reflexivity. }
  intros H. right. split; [reflexivity|].
  destruct response as [|b|n|m ex|s0|items|fields].
  - discriminate Htruthy.
  - unfold extract_assistant_response in H. rewrite Htruthy in H.
    injection H as <-. right. eexists; reflexivity.
  - unfold extract_assistant_response in H. rewrite Htruthy in H.
    injection H as <-. right. eexists; reflexivity.
  - unfold extract_assistant_response in H. rewrite Htruthy in H.
    injection H as <-. right. eexists; reflexivity.
  - unfold extract_assistant_response, content_fallback in H.
    rewrite Htruthy in H. cbn [negb py_in bind py_getitem] in H.
    destruct (substring_of "messages" s0);
      [injection H as <-; right; eexists; reflexivity|].
    destruct (substring_of "content" s0); injection H as <-;
      [right; eexists; reflexivity | left; reflexivity].
  - unfold extract_assistant_response, content_fallback in H.
    rewrite Htruthy in H. cbn [negb py_in bind py_getitem] in H.
    destruct (existsb (fun v => eq_str v "messages") items);
      [injection H as <-; right; eexists; reflexivity|].
    destruct (existsb (fun v => eq_str v "content") items); injection H as <-;
      [right; eexists; reflexivity | left; reflexivity].
  - assert (Hne : fields <> []) by (destruct fields; [discriminate | discriminate]).
    rewrite (extract_object _ Hne) in H.
    destruct (assistant_entries fields) as [|entry rest].
    + rewrite content_fallback_object in H.
      destruct (dict_get "content" fields) as [c|];
        [destruct c|]; first [discriminate | injection H as <-; left; reflexivity].
    + unfold parse_response, str_join in H.
      destruct (parse_loop (entry :: rest) []) as [texts|e'] eqn:Hparse.
      * right. exact (join_from_type_error _ _ _ _ H).
      * injection H as <-. right. exact (parse_loop_type_error _ _ _ Hparse).
Qed.

Lemma delivered_raise_forms (cfg : Config) (net : Network)
  (msgs : list ChatMessage) (e : exn) :
  delivered cfg net msgs = Raise e ->
  (exists t, e = JSONDecodeError t)
  \/ exists msg, e = internal_error msg /\ transport_message msg.
Proof.
  unfold delivered, make_glean_request, transport_message.
  destruct (GLEAN_API_KEY cfg) as [key|].
  2:{ intros H. injection H as <-. right. eexists. split; [reflexivity|]. auto. }
  destruct (String.eqb key "").
  { intros H. injection H as <-. right. eexists. split; [reflexivity|]. auto. }
  cbn [fst]. destruct (net _) as [t|t|r].
  - intros H. injection H as <-. right. eexists. split; [reflexivity|]. auto.
  - intros H. injection H as <-. right. eexists. split; [reflexivity|].
    right; right; left. eexists; reflexivity.
  - unfold check_response, raise_for_status, response_json.
    destruct (status_code r =? 401).
    { intros H. injection H as <-. right. eexists. split; [reflexivity|]. tauto. }
    destruct (status_code r =? 403).
    { intros H. injection H as <-. right. eexists. split; [reflexivity|]. tauto. }
    destruct (status_code r =? 429).
    { intros H. injection H as <-. right. eexists. split; [reflexivity|]. tauto. }
    destruct (is_success (status_code r)).
    + cbn [bind]. destruct (body r) as [j|t]; [discriminate|].
      intros H. injection H as <-. left. eexists; reflexivity.
    + intros H. injection H as <-. right. eexists. split; [reflexivity|].
      do 6 right. eexists; reflexivity.
Qed.

(** X10: called with a list of [ChatMessage], [chat] fails only with an
    [McpError] of code INTERNAL_ERROR, and its message is one of: the seven
    messages of the transport (missing key, timeout, connection failure,
    invalid key, forbidden, rate limit, other status), "Error processing
    chat request: ..." for an unexpected exception, "Empty response received
    from Glean Chat API", or "Could not extract assistant response from
    Glean Chat API". *)
Theorem chat_failure_messages
  (cfg : Config) (net : Network) (msgs : list ChatMessage) (e : exn) :
  fst (chat cfg net msgs) = Raise e ->
  exists msg : string,
    e = McpError (mkErrorData INTERNAL_ERROR msg)
    /\ (transport_message msg
        \/ (exists t, msg = "Error processing chat request: " ++ t)
        \/ msg = "Empty response received from Glean Chat API"
        \/ msg = "Could not extract assistant response from Glean Chat API").
Proof.
  rewrite chat_fst.
  destruct (delivered cfg net msgs) as [response|e'] eqn:Hdel.
  - cbn [bind].
    destruct (extract_assistant_response response) as [s|e'] eqn:Hext;
      [discriminate|].
    destruct (extract_raise_forms _ _ Hext)
      as [[_ ->] | [_ [-> | [t ->]]]];
      intros H; injection H as <-; eexists; (split; [reflexivity|]).
    + right; right; left; reflexivity.
    + right; right; right; reflexivity.
    + right; left. eexists; reflexivity.
  - destruct (delivered_raise_forms _ _ _ _ Hdel) as [[t ->] | (msg & -> & Hmsg)];
      intros H; injection H as <-; eexists; (split; [reflexivity|]).
    + right; left. eexists; reflexivity.
    + left. exact Hmsg.
Qed.

Lemma chat_failure_messages_witness :
  exists msg : string,
    internal_error "Rate limit exceeded" = McpError (mkErrorData INTERNAL_ERROR msg)
    /\ (transport_message msg
        \/ (exists t, msg = "Error processing chat request: " ++ t)
        \/ msg = "Empty response received from Glean Chat API"
        \/ msg = "Could not extract assistant response from Glean Chat API").
Proof.
  apply (chat_failure_messages sample_cfg (net_always (status_response 429))
           hello_messages (internal_error "Rate limit exceeded")).
  reflexivity.
Defined.

Lemma transport_message_not_empty_response (msg : string) :
  transport_message msg -> msg <> "Empty response received from Glean Chat API".
Proof.
  unfold transport_message.
  intros [-> | [-> | [[t ->] | [-> | [-> | [-> | [t ->]]]]]]]; discriminate.
Qed.

(** X11: [chat] fails with "Empty response received from Glean Chat API"
    exactly when the transport delivered a decoded body that is falsy (null,
    false, zero, the empty string, list or object); no other failure carries
    that message. *)
Theorem chat_empty_response_iff
  (cfg : Config) (net : Network) (msgs : list ChatMessage) :
  fst (chat cfg net msgs) = Raise empty_response_error
  <-> exists response : json,
        delivered cfg net msgs = Return response /\ truthy response = false.
Proof.
  rewrite chat_fst. split.
  - destruct (delivered cfg net msgs) as [response|e'] eqn:Hdel.
    + cbn [bind]. intros H. exists response. split; [reflexivity|].
      destruct (extract_assistant_response response) as [s|e'] eqn:Hext;
        [discriminate|].
      destruct (extract_raise_forms _ _ Hext)
        as [[Hfalsy _] | [_ [-> | [t ->]]]]; [exact Hfalsy | |]; discriminate.
    + destruct (delivered_raise_forms _ _ _ _ Hdel) as [[t ->] | (msg & -> & Hmsg)].
      * discriminate.
      * intros H. injection H as H.
        now apply transport_message_not_empty_response in Hmsg.
  - intros (response & -> & Hfalsy). cbn [bind].
    unfold extract_assistant_response. rewrite Hfalsy. reflexivity.
Qed.

Lemma chat_empty_response_iff_witness :
  fst (chat sample_cfg (net_always (ok_response (JStr ""))) hello_messages)
  = Raise empty_response_error.
Proof.
  apply (proj2 (chat_empty_response_iff sample_cfg
                  (net_always (ok_response (JStr ""))) hello_messages)).
  exists (JStr ""). split; reflexivity.
Defined.

(** X12: [parse_response] does not fail on entries that are objects whose
    [fragments], when present, is a list of objects: it returns the values
    found under [text], of any type, entry by entry and fragment by
    fragment; entries without [fragments] and fragments without [text]
    contribute nothing. *)
Theorem parse_response_collects_text_values (entries : list json) :
  forallb fragments_are_objects entries = true ->
  parse_response entries = Return (flat_map entry_text_values entries).
Proof.
  intros Hobj. unfold parse_response.
  now rewrite (parse_loop_objects _ _ Hobj).
Qed.

Lemma parse_response_collects_text_values_witness :
  parse_response
    [JObj [("author", JStr "GLEAN_AI")];
     JObj [("fragments",
            JArr [JObj [("text", JStr "a")];
                  JObj [("structuredResults", JArr [])];
                  JObj [("text", JInt 3)]])]]
  = Return [JStr "a"; JInt 3].
Proof.
  apply (parse_response_collects_text_values
           [JObj [("author", JStr "GLEAN_AI")];
            JObj [("fragments",
                   JArr [JObj [("text", JStr "a")];
                         JObj [("structuredResults", JArr [])];
                         JObj [("text", JInt 3)]])]]).
  reflexivity.
Defined.
